(** * The REST access layer of the smart-sensor pipeline

    A shallow embedding of [src/common/auth.py] and [src/common/api_client.py]:
    the OAuth2 token manager, the rate-limit handler, the [APIClient] retry
    loop, the paginator, the client metrics and the [OpenMeteoClient].

    Python objects become records, Python exceptions a sum type, and the
    effects of the code (HTTP calls, token exchanges, clock readings, sleeps,
    logger records, generator yields) are threaded through an explicit
    [World].  The network and the clock are oracles of an environment [Env]:
    the n-th call of each kind is answered by a function of [n].

    What is not modelled, and how it is read:
    - the [requests] session with the adapter [_create_session] mounts is an
      oracle: [session_get] is what [self.session.get] hands back to [get],
      after whatever the adapter did on its own;
    - floats ([base_delay], the error rate) are exact rationals, which a
      product by a power of two and a quotient of small integers are up to
      rounding;
    - JSON numbers are integers (the coordinates of [get_weather_data],
      floats in the source, are passed on as whatever value is given),
      strings are ASCII, and an undecodable body
      raises requests' own [JSONDecodeError], a [RequestException]
      (requests 2.27 and later);
    - the advisory warning of [check_rate_limit_headers] and debug and info
      log records are left out. *)

From Stdlib Require Import ZArith QArith Qpower String Ascii List Bool Lia.
From stdpp Require Import base option gmap strings.
Import ListNotations.

Set Warnings "-register-all".

Local Open Scope string_scope.
Local Open Scope Z_scope.

(** ** Python values and builtins used by the code *)

Module Py.

(** What [response.json()] returns. Numbers are restricted to integers and
    an object is its list of members (keys assumed distinct). *)
Inductive JSON : Type :=
| JNull
| JBool (b : bool)
| JNum (n : Z)
| JStr (s : string)
| JArr (items : list JSON)
| JObj (members : list (string * JSON)).

(** Truth value of a string: [bool(s)]. *)
Definition str_truthy (s : string) : bool :=
  match s with EmptyString => false | String _ _ => true end.

(** Truth value of a JSON value, as [if v:] or [not v] reads it. *)
Definition truthy (v : JSON) : bool :=
  match v with
  | JNull => false
  | JBool b => b
  | JNum n => negb (n =? 0)
  | JStr s => str_truthy s
  | JArr items => match items with [] => false | _ => true end
  | JObj members => match members with [] => false | _ => true end
  end.

(** Truth value of an [Optional] string. *)
Definition opt_truthy (o : option string) : bool :=
  match o with Some s => str_truthy s | None => false end.

(** [d.get(key)] on the members of an object. *)
Fixpoint dict_get (key : string) (members : list (string * JSON)) : option JSON :=
  match members with
  | [] => None
  | (k, v) :: rest => if String.eqb k key then Some v else dict_get key rest
  end.

Definition code (c : ascii) : Z := Z.of_N (N_of_ascii c).

(** ASCII white space, as [int()] strips it. *)
Definition is_space (c : ascii) : bool :=
  let n := code c in
  ((9 <=? n) && (n <=? 13)) || ((28 <=? n) && (n <=? 32)).

Definition digit_val (c : ascii) : option Z :=
  let n := code c in
  if (48 <=? n) && (n <=? 57) then Some (n - 48) else None.

Fixpoint lstrip (cs : list ascii) : list ascii :=
  match cs with
  | c :: rest => if is_space c then lstrip rest else cs
  | [] => []
  end.

Definition strip (cs : list ascii) : list ascii :=
  rev (lstrip (rev (lstrip cs))).

(** Decimal digits, single underscores allowed between two digits. *)
Fixpoint parse_digits (acc : Z) (after_digit : bool) (cs : list ascii) : option Z :=
  match cs with
  | [] => if after_digit then Some acc else None
  | c :: rest =>
      match digit_val c with
      | Some d => parse_digits (10 * acc + d) true rest
      | None =>
          if Ascii.eqb c "_" && after_digit then parse_digits acc false rest
          else None
      end
  end.

(** [int(s)] for an ASCII string in base 10; [None] stands for
    [ValueError]. *)
Definition int (s : string) : option Z :=
  match strip (list_ascii_of_string s) with
  | c :: rest =>
      if Ascii.eqb c "+" then parse_digits 0 false rest
      else if Ascii.eqb c "-" then option_map Z.opp (parse_digits 0 false rest)
      else parse_digits 0 false (c :: rest)
  | [] => None
  end.

Definition lower_ascii (c : ascii) : ascii :=
  let n := code c in
  if (65 <=? n) && (n <=? 90) then ascii_of_N (Z.to_N (n + 32)) else c.

(** [s.lower()] on ASCII. *)
Fixpoint lower (s : string) : string :=
  match s with
  | EmptyString => EmptyString
  | String c rest => String (lower_ascii c) (lower rest)
  end.

(** [s.lstrip('/')] and [s.rstrip('/')]. *)
Fixpoint lstrip_slash (s : string) : string :=
  match s with
  | String c rest => if Ascii.eqb c "/" then lstrip_slash rest else s
  | EmptyString => EmptyString
  end.

Fixpoint rstrip_slash (s : string) : string :=
  match s with
  | EmptyString => EmptyString
  | String c rest =>
      match rstrip_slash rest with
      | EmptyString => if Ascii.eqb c "/" then EmptyString else String c EmptyString
      | kept => String c kept
      end
  end.

End Py.

(** ** Exceptions, responses and the world *)

(** The messages of the [RuntimeError]s the two modules raise. *)
Inductive RuntimeMsg : Type :=
| RateLimitExceededAfter (attempt : Z)   (* "Rate limit exceeded after {attempt} retries" *)
| FailedAfterAttempts (max_attempts : Z) (* "Failed after {max_attempts} attempts" *)
| FailedToObtainToken                    (* "Failed to obtain access token" *)
| TokenFetchFailed.                      (* "OAuth2 token fetch failed: ..." *)

Inductive Exn : Type :=
| Timeout                     (* requests.exceptions.Timeout *)
| HTTPError (status : Z)      (* raised by raise_for_status *)
| RequestException            (* any other requests exception: ConnectionError,
                                 RetryError, JSONDecodeError, ... *)
| RuntimeError (msg : RuntimeMsg)
| ValueError
| KeyError
| AttributeError.

(** [isinstance(e, requests.exceptions.RequestException)]. *)
Definition is_request_exception (e : Exn) : bool :=
  match e with
  | Timeout | HTTPError _ | RequestException => true
  | _ => false
  end.

(** A response as the client reads it. [headers] is requests'
    case-insensitive dictionary, which stores its keys lower-cased;
    [body] is what [.json()] gives, [None] when the body does not decode. *)
Record Response : Type := mkResponse {
  status_code : Z;
  headers : gmap string string;
  body : option Py.JSON
}.

(** [response.headers.get(name)]. *)
Definition headers_get (name : string) (r : Response) : option string :=
  headers r !! Py.lower name.

(** What [session.get] / [session.post] hands back to the caller. *)
Inductive Outcome : Type :=
| Responded (r : Response)
| TimedOut      (* raises Timeout *)
| Failed.       (* raises another RequestException *)

(** A request as given to the session. *)
Record Request : Type := mkRequest {
  req_url : string;
  req_params : option (gmap string Py.JSON);
  req_json : option Py.JSON;      (* POST only *)
  req_data : option Py.JSON;      (* POST only *)
  req_headers : gmap string string;
  req_timeout : Z
}.

(** What the POST to the token endpoint gives: the members
    [access_token] and [expires_in] of the decoded body, or a requests
    exception (transport failure, error status, undecodable body). *)
Inductive TokenOutcome : Type :=
| TokenJson (token : option string) (expires_in : option Z)
| TokenRequestFailed.

(** Records written with [logger.warning] and [logger.error] (debug and
    info records, and the advisory low-remaining warning, are left out). *)
Inductive LogRecord : Type :=
| WarnRateLimitHit (attempt : Z) (wait_time : Q)
| WarnGot401
| WarnMaxPages (max_pages : Z)
| ErrTimeout
| ErrHTTP
| ErrRequestFailed
| ErrPostFailed
| ErrTokenFetch.

(** The environment: deterministic oracles for the network and the clock.
    Times are microseconds since the epoch. *)
Record Env : Type := mkEnv {
  session_get : nat -> Request -> Outcome;
  session_post : nat -> Request -> Outcome;
  token_post : nat -> TokenOutcome;
  utcnow : nat -> Z
}.

(** The effects performed so far. *)
Record World : Type := mkWorld {
  http_calls : nat;          (* calls of the API session (get and post) *)
  token_calls : nat;         (* POSTs to the token endpoint *)
  clock_reads : nat;         (* readings of datetime.utcnow() *)
  slept : list Q;            (* arguments of time.sleep, oldest first *)
  sent : list Request;       (* requests given to the API session, oldest first *)
  logged : list LogRecord;   (* oldest first *)
  yielded : list Py.JSON     (* pages yielded by the generator, oldest first *)
}.

Definition world0 : World := mkWorld 0 0 0 [] [] [] [].

(** ** A monad for state that survives exceptions *)

Inductive Result (A : Type) : Type :=
| Ok (a : A)
| Raise (e : Exn)
| OutOfFuel.
Arguments Ok {A} a.
Arguments Raise {A} e.
Arguments OutOfFuel {A}.

Definition M (S A : Type) : Type := S -> Result A * S.

Definition ret {S A} (a : A) : M S A := fun s => (Ok a, s).
Definition raise {S A} (e : Exn) : M S A := fun s => (Raise e, s).
Definition bind {S A B} (m : M S A) (k : A -> M S B) : M S B :=
  fun s =>
    match m s with
    | (Ok a, s') => k a s'
    | (Raise e, s') => (Raise e, s')
    | (OutOfFuel, s') => (OutOfFuel, s')
    end.
Definition gets {S A} (f : S -> A) : M S A := fun s => (Ok (f s), s).
Definition modify {S} (f : S -> S) : M S unit := fun s => (Ok tt, f s).

Declare Scope py_scope.
Delimit Scope py_scope with py.
Notation "x <- m ;; k" := (bind m (fun x => k))
  (at level 100, m at next level, right associativity) : py_scope.
Notation "m ;; k" := (bind m (fun _ => k))
  (at level 100, right associativity) : py_scope.
Local Open Scope py_scope.

(** Run a computation on one component of a pair and put the component
    back, whatever the result. *)
Definition on_snd {S W A} (m : M W A) : M (S * W) A :=
  fun '(s, w) => let '(r, w') := m w in (r, (s, w')).

(** *** Effects on the world *)

Definition set_slept (f : list Q -> list Q) (w : World) : World :=
  mkWorld (http_calls w) (token_calls w) (clock_reads w) (f (slept w))
          (sent w) (logged w) (yielded w).

Definition set_logged (f : list LogRecord -> list LogRecord) (w : World) : World :=
  mkWorld (http_calls w) (token_calls w) (clock_reads w) (slept w)
          (sent w) (f (logged w)) (yielded w).

Definition set_yielded (f : list Py.JSON -> list Py.JSON) (w : World) : World :=
  mkWorld (http_calls w) (token_calls w) (clock_reads w) (slept w)
          (sent w) (logged w) (f (yielded w)).

(** [logger.warning(...)] / [logger.error(...)]. *)
Definition log (r : LogRecord) : M World unit :=
  modify (set_logged (fun l => (l ++ [r])%list)).

(** [time.sleep(seconds)]: a negative argument is a [ValueError]. *)
Definition time_sleep (seconds : Q) : M World unit :=
  if Qle_bool 0 seconds
  then modify (set_slept (fun l => (l ++ [seconds])%list))
  else raise ValueError.

(** [datetime.utcnow()]. *)
Definition datetime_utcnow (env : Env) : M World Z :=
  fun w =>
    (Ok (utcnow env (clock_reads w)),
     mkWorld (http_calls w) (token_calls w) (S (clock_reads w)) (slept w)
             (sent w) (logged w) (yielded w)).

(** [timedelta(seconds=n)] in microseconds. *)
Definition timedelta_seconds (n : Z) : Z := n * 1000000.

(** The API session: the request is recorded and answered by the oracle. *)
Definition call_session (oracle : nat -> Request -> Outcome) (rq : Request)
  : M World Response :=
  fun w =>
    let w' := mkWorld (S (http_calls w)) (token_calls w) (clock_reads w) (slept w)
                      (sent w ++ [rq])%list (logged w) (yielded w) in
    match oracle (http_calls w) rq with
    | Responded r => (Ok r, w')
    | TimedOut => (Raise Timeout, w')
    | Failed => (Raise RequestException, w')
    end.

(** [response.raise_for_status()]. *)
Definition raise_for_status {S} (r : Response) : M S unit :=
  if (400 <=? status_code r) && (status_code r <? 600)
  then raise (HTTPError (status_code r))
  else ret tt.

(** [response.json()]; an undecodable body raises requests' JSONDecodeError,
    a [RequestException]. *)
Definition response_json {S} (r : Response) : M S Py.JSON :=
  match body r with
  | Some j => ret j
  | None => raise RequestException
  end.

(** [int(s)] raising [ValueError]. *)
Definition py_int {S} (s : string) : M S Z :=
  match Py.int s with
  | Some n => ret n
  | None => raise ValueError
  end.

(** ** auth.py *)

Module Auth.

(** *** RateLimitHandler *)

Record RateLimitHandler : Type := mkRateLimitHandler {
  max_retries : Z;
  base_delay : Q      (* a float in the source, here an exact rational *)
}.

(** [RateLimitHandler(max_retries=5, base_delay=1.0)]. *)
Definition default_handler : RateLimitHandler := mkRateLimitHandler 5 1.

Definition handle_rate_limit (self : RateLimitHandler) (response : Response)
           (attempt : Z) : M World unit :=
  if negb (status_code response =? 429) then ret tt
  else if attempt >=? max_retries self
  then raise (RuntimeError (RateLimitExceededAfter attempt))
  else
    let retry_after := headers_get "Retry-After" response in
    wait_time <-
      (if Py.opt_truthy retry_after
       then n <- py_int (default "" retry_after) ;; ret (inject_Z n)
       else ret (Qpower 2 attempt * base_delay self)%Q) ;;
    log (WarnRateLimitHit attempt wait_time) ;;
    time_sleep wait_time.

(** The warning itself is not modelled; converting the two headers can
    still raise. *)
Definition check_rate_limit_headers (self : RateLimitHandler)
           (response : Response) : M World unit :=
  let remaining := headers_get "X-RateLimit-Remaining" response in
  let limit := headers_get "X-RateLimit-Limit" response in
  if Py.opt_truthy remaining && Py.opt_truthy limit
  then _ <- py_int (default "" remaining) ;;
       _ <- py_int (default "" limit) ;;
       ret tt
  else ret tt.

(** *** OAuth2TokenManager *)

Record OAuth2TokenManager : Type := mkOAuth2TokenManager {
  token_url : string;
  client_id : string;
  client_secret : string;
  refresh_buffer_seconds : Z;
  access_token : option string;
  token_expires_at : option Z     (* microseconds since the epoch *)
}.

(** [OAuth2TokenManager(token_url, client_id, client_secret, buffer)]. *)
Definition new_manager (url id secret : string) (buffer : Z) : OAuth2TokenManager :=
  mkOAuth2TokenManager url id secret buffer None None.

Definition set_token (tok : option string) (self : OAuth2TokenManager) :=
  mkOAuth2TokenManager (token_url self) (client_id self) (client_secret self)
    (refresh_buffer_seconds self) tok (token_expires_at self).

Definition set_expires_at (e : option Z) (self : OAuth2TokenManager) :=
  mkOAuth2TokenManager (token_url self) (client_id self) (client_secret self)
    (refresh_buffer_seconds self) (access_token self) e.

(** The methods run on the manager and the world. *)
Definition TM : Type -> Type := M (OAuth2TokenManager * World).

Definition _needs_refresh (env : Env) : TM bool :=
  self <- gets fst ;;
  match token_expires_at self with
  | Some expires_at =>
      if Py.opt_truthy (access_token self)
      then now <- on_snd (datetime_utcnow env) ;;
           ret (now >=? expires_at - timedelta_seconds (refresh_buffer_seconds self))
      else ret true
  | None => ret true
  end.

(** The POST to the token endpoint, answered by the oracle. *)
Definition post_token (env : Env) : M World TokenOutcome :=
  fun w =>
    (Ok (token_post env (token_calls w)),
     mkWorld (http_calls w) (S (token_calls w)) (clock_reads w) (slept w)
             (sent w) (logged w) (yielded w)).

Definition _fetch_new_token (env : Env) : TM unit :=
  outcome <- on_snd (post_token env) ;;
  match outcome with
  | TokenRequestFailed =>
      on_snd (log ErrTokenFetch) ;;
      raise (RuntimeError TokenFetchFailed)
  | TokenJson None _ => raise KeyError
  | TokenJson (Some tok) expires_in =>
      modify (fun '(self, w) => (set_token (Some tok) self, w)) ;;
      now <- on_snd (datetime_utcnow env) ;;
      modify (fun '(self, w) =>
                (set_expires_at
                   (Some (now + timedelta_seconds (default 3600 expires_in))) self,
                 w))
  end.

Definition get_access_token (env : Env) : TM string :=
  refresh <- _needs_refresh env ;;
  (if refresh : bool then _fetch_new_token env else ret tt) ;;
  self <- gets fst ;;
  if Py.opt_truthy (access_token self)
  then ret (default "" (access_token self))
  else raise (RuntimeError FailedToObtainToken).

(** *** APIKeyAuth *)

Record APIKeyAuth : Type := mkAPIKeyAuth {
  api_key : string;
  header_name : string
}.

Definition get_headers (self : APIKeyAuth) : gmap string string :=
  {[ header_name self := api_key self ]}.

End Auth.

(** ** api_client.py *)

Module ApiClient.
Import Auth.

Record APIClient : Type := mkAPIClient {
  base_url : string;
  auth_manager : option OAuth2TokenManager;
  api_key_auth : option APIKeyAuth;
  timeout : Z;
  rate_limit_handler : RateLimitHandler;
  request_count : Z;
  error_count : Z
}.

(** [APIClient(base_url, auth_manager, api_key_auth, timeout, max_retries)];
    the handler is built with its default [base_delay]. *)
Definition new_client (url : string) (auth : option OAuth2TokenManager)
           (key : option APIKeyAuth) (tmo max_retries : Z) : APIClient :=
  mkAPIClient (Py.rstrip_slash url) auth key tmo (mkRateLimitHandler max_retries 1) 0 0.

Definition set_auth_manager (a : option OAuth2TokenManager) (c : APIClient) :=
  mkAPIClient (base_url c) a (api_key_auth c) (timeout c) (rate_limit_handler c)
              (request_count c) (error_count c).

Definition set_request_count (n : Z) (c : APIClient) :=
  mkAPIClient (base_url c) (auth_manager c) (api_key_auth c) (timeout c)
              (rate_limit_handler c) n (error_count c).

Definition set_error_count (n : Z) (c : APIClient) :=
  mkAPIClient (base_url c) (auth_manager c) (api_key_auth c) (timeout c)
              (rate_limit_handler c) (request_count c) n.

(** The methods run on the client and the world. *)
Definition CM : Type -> Type := M (APIClient * World).

(** A method of [self.auth_manager]; on [None] Python raises
    [AttributeError]. *)
Definition on_manager {A} (m : TM A) : CM A :=
  fun '(c, w) =>
    match auth_manager c with
    | Some tm =>
        let '(r, (tm', w')) := m (tm, w) in
        (r, (set_auth_manager (Some tm') c, w'))
    | None => (Raise AttributeError, (c, w))
    end.

(** [self.request_count += 1] and [self.error_count += 1]. *)
Definition incr_request_count : CM unit :=
  modify (fun '(c, w) => (set_request_count (request_count c + 1) c, w)).

Definition incr_error_count : CM unit :=
  modify (fun '(c, w) => (set_error_count (error_count c + 1) c, w)).

(** [try: body  except ...: handler]: [handlers e] is the body of the first
    except clause that matches [e], if any. *)
Definition try_except {S A} (body : M S A) (handlers : Exn -> option (M S A))
  : M S A :=
  fun s =>
    match body s with
    | (Raise e, s') =>
        match handlers e with
        | Some handler => handler s'
        | None => (Raise e, s')
        end
    | other => other
    end.

Definition _get_headers (env : Env) : CM (gmap string string) :=
  let headers : gmap string string :=
    {[ "User-Agent" := "SmartSensorPipeline/1.0"; "Accept" := "application/json" ]} in
  self <- gets fst ;;
  headers <-
    match auth_manager self with
    | Some _ =>
        token <- on_manager (get_access_token env) ;;
        ret (<[ "Authorization" := String.append "Bearer " token ]> headers)
    | None => ret headers
    end ;;
  match api_key_auth self with
  | Some key => ret (get_headers key ∪ headers)
  | None => ret headers
  end.

Definition url_of (self : APIClient) (endpoint : string) : string :=
  String.append (base_url self) (String.append "/" (Py.lstrip_slash endpoint)).

(** How one pass through the body of the [try] in [get] ends when nothing
    is raised. *)
Inductive Flow : Type :=
| Return (data : Py.JSON)
| Continue (attempt : Z) (headers : gmap string string).

(** The body of the [try] of [get]. *)
Definition get_try (env : Env) (url : string) (params : option (gmap string Py.JSON))
           (retry_on_rate_limit : bool) (attempt : Z) (headers : gmap string string)
  : CM Flow :=
  incr_request_count ;;
  self <- gets fst ;;
  response <- on_snd (call_session (session_get env)
                        (mkRequest url params None None headers (timeout self))) ;;
  if (status_code response =? 429) && retry_on_rate_limit then
    on_snd (handle_rate_limit (rate_limit_handler self) response attempt) ;;
    ret (Continue (attempt + 1) headers)
  else if (status_code response =? 401) && bool_decide (is_Some (auth_manager self)) then
    on_snd (log WarnGot401) ;;
    on_manager (_fetch_new_token env) ;;
    headers' <- _get_headers env ;;
    ret (Continue (attempt + 1) headers')
  else
    on_snd (check_rate_limit_headers (rate_limit_handler self) response) ;;
    raise_for_status response ;;
    data <- response_json response ;;
    ret (Return data).

(** The [while attempt < max_attempts] loop of [get]. Each pass either
    ends the call or adds one to [attempt], so [max_attempts] passes of
    fuel are enough (see [get_terminates]). *)
Fixpoint get_loop (env : Env) (url : string) (params : option (gmap string Py.JSON))
         (retry_on_rate_limit : bool) (max_attempts : Z)
         (fuel : nat) (attempt : Z) (headers : gmap string string) : CM Py.JSON :=
  if attempt <? max_attempts then
    match fuel with
    | O => fun s => (OutOfFuel, s)
    | S fuel' =>
        flow <- try_except
                  (get_try env url params retry_on_rate_limit attempt headers)
                  (fun e =>
                     match e with
                     | Timeout => Some (
                         incr_error_count ;;
                         on_snd (log ErrTimeout) ;;
                         if attempt >=? max_attempts - 1 then raise Timeout
                         else ret (Continue (attempt + 1) headers))
                     | HTTPError _ => Some (
                         incr_error_count ;;
                         on_snd (log ErrHTTP) ;;
                         raise e)
                     | RequestException => Some (
                         incr_error_count ;;
                         on_snd (log ErrRequestFailed) ;;
                         raise e)
                     | _ => None
                     end) ;;
        match flow with
        | Return data => ret data
        | Continue attempt' headers' =>
            get_loop env url params retry_on_rate_limit max_attempts
                     fuel' attempt' headers'
        end
    end
  else raise (RuntimeError (FailedAfterAttempts max_attempts)).

Definition get (env : Env) (endpoint : string) (params : option (gmap string Py.JSON))
           (retry_on_rate_limit : bool) : CM Py.JSON :=
  self <- gets fst ;;
  let url := url_of self endpoint in
  headers <- _get_headers env ;;
  let attempt := 0 in
  let max_attempts :=
    if retry_on_rate_limit then max_retries (rate_limit_handler self) else 1 in
  get_loop env url params retry_on_rate_limit max_attempts
           (Z.to_nat max_attempts) attempt headers.

Definition post (env : Env) (endpoint : string) (json data : option Py.JSON)
  : CM Py.JSON :=
  self <- gets fst ;;
  let url := url_of self endpoint in
  headers <- _get_headers env ;;
  try_except
    (incr_request_count ;;
     response <- on_snd (call_session (session_post env)
                           (mkRequest url None json data headers (timeout self))) ;;
     raise_for_status response ;;
     response_json response)
    (fun e =>
       if is_request_exception e
       then Some (incr_error_count ;; on_snd (log ErrPostFailed) ;; raise e)
       else None).

(** [yield page]. *)
Definition yield (page : Py.JSON) : CM unit :=
  on_snd (modify (set_yielded (fun l => (l ++ [page])%list))).

(** Truth value of what [dict.get] returned ([None] when the key is
    missing). *)
Definition got_truthy (v : option Py.JSON) : bool :=
  match v with Some j => Py.truthy j | None => false end.

(** Truth value of [max_pages : Optional[int]]. *)
Definition max_pages_truthy (max_pages : option Z) : bool :=
  match max_pages with Some m => negb (m =? 0) | None => false end.

(** The [while True] loop of [paginate], driven by a consumer that keeps
    asking for the next page; [fuel] bounds the number of passes and
    [OutOfFuel] says the generator had not finished after that many. *)
Fixpoint paginate_loop (env : Env) (endpoint : string) (max_pages : option Z)
         (fuel : nat) (params : gmap string Py.JSON) (page_count : Z)
         (next_cursor : option Py.JSON) : CM unit :=
  match fuel with
  | O => fun s => (OutOfFuel, s)
  | S fuel' =>
      let params :=
        match next_cursor with
        | Some cursor => if Py.truthy cursor then <[ "cursor" := cursor ]> params else params
        | None => params
        end in
      response_data <- get env endpoint (Some params) true ;;
      yield response_data ;;
      let page_count := page_count + 1 in
      match response_data with
      | Py.JObj members =>
          let next_cursor := Py.dict_get "next_cursor" members in
          let has_more := default (Py.JBool false) (Py.dict_get "has_more" members) in
          if negb (got_truthy next_cursor) && negb (Py.truthy has_more) then ret tt
          else if max_pages_truthy max_pages && (page_count >=? default 0 max_pages)
          then on_snd (log (WarnMaxPages (default 0 max_pages)))
          else paginate_loop env endpoint max_pages fuel' params page_count next_cursor
      | _ => raise AttributeError
      end
  end.

(** [params or {}] is the caller's dictionary when it is not empty; Python
    then updates it in place, which no statement below depends on. *)
Definition paginate (env : Env) (endpoint : string)
           (params : option (gmap string Py.JSON)) (page_size : Z)
           (max_pages : option Z) (fuel : nat) : CM unit :=
  let params := <[ "limit" := Py.JNum page_size ]> (default ∅ params) in
  let page_count := 0 in
  let next_cursor := None in
  paginate_loop env endpoint max_pages fuel params page_count next_cursor.

Record Metrics : Type := mkMetrics {
  m_request_count : Z;
  m_error_count : Z;
  m_error_rate : Q      (* the exact quotient; Python rounds it to a float *)
}.

Definition get_metrics (self : APIClient) : Metrics :=
  mkMetrics (request_count self) (error_count self)
            (if request_count self >? 0
             then (inject_Z (error_count self) / inject_Z (request_count self))%Q
             else 0%Q).

End ApiClient.

(** ** Scenarios: concrete servers, clocks and clients *)

Module Scenarios.
Import Auth ApiClient.

Definition json_response (status : Z) (data : Py.JSON) : Response :=
  mkResponse status ∅ (Some data).

(** A 429 without and with [Retry-After: 5]. *)
Definition too_many_requests : Response := mkResponse 429 ∅ None.
Definition too_many_requests_retry_after_5 : Response :=
  mkResponse 429 {[ "retry-after" := "5" ]} None.

(** A clock that advances one second per reading. *)
Definition ticking (start : Z) (n : nat) : Z := start + Z.of_nat n * 1000000.

(** A token endpoint that is never reached successfully. *)
Definition no_token_endpoint (n : nat) : TokenOutcome := TokenRequestFailed.

(** A server that plays a script of outcomes, then keeps giving [last]. *)
Definition scripted (script : list Outcome) (last : Outcome) (n : nat) (rq : Request)
  : Outcome :=
  nth n script last.

Definition script_env (script : list Outcome) (last : Outcome) : Env :=
  mkEnv (scripted script last) (scripted script last) no_token_endpoint (ticking 0).

(** [APIClient("http://api.example/v1/")] with the default of three
    retries and no credentials. *)
Definition plain_client : APIClient :=
  new_client "http://api.example/v1/" None None 30 3.

(** A manager that holds a token expiring ten minutes after time 0, with
    the default buffer of five minutes. *)
Definition manager_10_minutes_left : OAuth2TokenManager :=
  mkOAuth2TokenManager "http://auth.example/token" "id" "secret" 300
                       (Some "tok-1") (Some (timedelta_seconds 600)).

(** Outcomes of the session. *)
Definition ok (data : Py.JSON) : Outcome := Responded (json_response 200 data).
Definition unavailable : Outcome := Responded (mkResponse 503 ∅ None).
Definition unauthorized : Outcome := Responded (mkResponse 401 ∅ None).

(** A server that answers 401 once, then 200, with a token endpoint whose
    tokens live [lifetime] seconds. *)
Definition expired_once (lifetime : Z) : Env :=
  mkEnv (scripted [unauthorized] (ok Py.JNull)) (scripted [] Failed)
        (fun _ => TokenJson (Some "tok-2") (Some lifetime)) (ticking 0).

(** A client whose token manager holds a token that is still good. *)
Definition auth_client : APIClient :=
  new_client "http://api.example/v1/" (Some manager_10_minutes_left) None 30 3.

(** A page that names a cursor, and a last page. *)
Definition page_abc : Py.JSON :=
  Py.JObj [("data", Py.JArr []); ("next_cursor", Py.JStr "abc")].
Definition page_end : Py.JSON :=
  Py.JObj [("data", Py.JArr []); ("has_more", Py.JBool false)].

End Scenarios.

(** ** Vocabulary of the statements *)

Import Auth ApiClient Scenarios.

(** The [logger.error] records of the except clauses of [get] and [post]. *)
Definition is_request_error (r : LogRecord) : bool :=
  match r with
  | ErrTimeout | ErrHTTP | ErrRequestFailed | ErrPostFailed => true
  | _ => false
  end.

(** How many of them a log holds. *)
Fixpoint count_request_errors (l : list LogRecord) : Z :=
  match l with
  | [] => 0
  | r :: rest => (if is_request_error r then 1 else 0) + count_request_errors rest
  end.

Definition errors_logged (w : World) : Z := count_request_errors (logged w).

(** No request to the API, no request error logged, nothing yielded. *)
Definition same_traffic (w w' : World) : Prop :=
  http_calls w' = http_calls w /\ sent w' = sent w
  /\ errors_logged w' = errors_logged w /\ yielded w' = yielded w.

(** The client is as it was, up to the state of its token manager. *)
Definition same_client (c c' : APIClient) : Prop :=
  request_count c' = request_count c /\ error_count c' = error_count c
  /\ rate_limit_handler c' = rate_limit_handler c /\ timeout c' = timeout c
  /\ base_url c' = base_url c /\ api_key_auth c' = api_key_auth c
  /\ (auth_manager c' = None <-> auth_manager c = None).

(** Besides, nothing slept. *)
Definition quiet_world (w w' : World) : Prop :=
  same_traffic w w' /\ slept w' = slept w.

(** A result that is neither a loop cut short, nor an exception the except
    clauses of [get] catch, nor the rate-limit error. *)
Definition benign {A} (r : Result A) : Prop :=
  match r with
  | Ok _ => True
  | Raise e =>
      is_request_exception e = false
      /\ forall a, e <> RuntimeError (RateLimitExceededAfter a)
  | OutOfFuel => False
  end.

(** What one pass through the [try] body of [get] does to the counters. *)
Definition one_attempt (retry : bool) (attempt : Z) (c : APIClient) (w : World)
           (r : Result Flow) (c' : APIClient) (w' : World) : Prop :=
  http_calls w' = S (http_calls w)
  /\ errors_logged w' = errors_logged w
  /\ yielded w' = yielded w
  /\ request_count c' = request_count c + 1
  /\ error_count c' = error_count c
  /\ rate_limit_handler c' = rate_limit_handler c
  /\ r <> OutOfFuel
  /\ (retry = false -> slept w' = slept w)
  /\ (forall a h, r = Ok (Continue a h) -> a = attempt + 1)
  /\ ((retry = true -> attempt < max_retries (rate_limit_handler c)) ->
      forall a, r <> Raise (RuntimeError (RateLimitExceededAfter a))).

(** The counters move with the traffic: as many requests counted as made,
    as many errors counted as request errors logged. *)
Definition balanced (c : APIClient) (w : World) (c' : APIClient) (w' : World) : Prop :=
  request_count c' - request_count c = Z.of_nat (http_calls w') - Z.of_nat (http_calls w)
  /\ error_count c' - error_count c = errors_logged w' - errors_logged w.

Definition loop_post (retry : bool) (max_attempts : Z) (fuel : nat) (attempt : Z)
           (c : APIClient) (w : World) (r : Result Py.JSON)
           (c' : APIClient) (w' : World) : Prop :=
  balanced c w c' w'
  /\ yielded w' = yielded w
  /\ rate_limit_handler c' = rate_limit_handler c
  /\ (max_attempts - attempt <= Z.of_nat fuel -> r <> OutOfFuel)
  /\ (retry = false -> slept w' = slept w)
  /\ ((retry = true -> max_attempts <= max_retries (rate_limit_handler c)) ->
      forall a, r <> Raise (RuntimeError (RateLimitExceededAfter a)))
  /\ 0 <= Z.of_nat (http_calls w') - Z.of_nat (http_calls w)
     <= Z.max 0 (max_attempts - attempt)
  /\ 0 <= errors_logged w' - errors_logged w
     <= Z.of_nat (http_calls w') - Z.of_nat (http_calls w).

Definition call_post (retry : bool) (c : APIClient) (w : World) {A} (r : Result A)
           (c' : APIClient) (w' : World) : Prop :=
  balanced c w c' w'
  /\ yielded w' = yielded w
  /\ rate_limit_handler c' = rate_limit_handler c
  /\ r <> OutOfFuel
  /\ (retry = false ->
      slept w' = slept w /\ (http_calls w' <= S (http_calls w))%nat)
  /\ (forall a, r <> Raise (RuntimeError (RateLimitExceededAfter a)))
  /\ 0 <= errors_logged w' - errors_logged w
     <= Z.of_nat (http_calls w') - Z.of_nat (http_calls w).

(** The two rate-limit headers, when both are there, are integers. *)
Definition rate_limit_headers_ok (response : Response) : bool :=
  let remaining := headers_get "X-RateLimit-Remaining" response in
  let limit := headers_get "X-RateLimit-Limit" response in
  if Py.opt_truthy remaining && Py.opt_truthy limit
  then bool_decide (is_Some (Py.int (default "" remaining)))
       && bool_decide (is_Some (Py.int (default "" limit)))
  else true.

Definition is_error_status (status : Z) : bool := (400 <=? status) && (status <? 600).

(** The state once [request_count] is incremented and the request sent. *)
Definition request_sent (rq : Request) (s : APIClient * World) : APIClient * World :=
  let '(c, w) := s in
  (set_request_count (request_count c + 1) c,
   mkWorld (S (http_calls w)) (token_calls w) (clock_reads w) (slept w)
           (sent w ++ [rq])%list (logged w) (yielded w)).

(** The state once an except clause has counted and logged the error. *)
Definition error_counted (rec : LogRecord) (s : APIClient * World) : APIClient * World :=
  let '(c, w) := s in
  (set_error_count (error_count c + 1) c,
   set_logged (fun l => (l ++ [rec])%list) w).

(** The request [get] sends. *)
Definition get_request (c : APIClient) (url : string)
           (params : option (gmap string Py.JSON)) (headers : gmap string string) : Request :=
  mkRequest url params None None headers (timeout c).

(** The headers [_get_headers] builds from a token and an API key. *)
Definition built_headers (token : option string) (key : option APIKeyAuth)
  : gmap string string :=
  let headers : gmap string string :=
    {[ "User-Agent" := "SmartSensorPipeline/1.0"; "Accept" := "application/json" ]} in
  let headers :=
    match token with
    | Some tok => <[ "Authorization" := String.append "Bearer " tok ]> headers
    | None => headers
    end in
  match key with
  | Some k => get_headers k ∪ headers
  | None => headers
  end.

(** The world after one reading of the clock, and after one POST to the
    token endpoint. *)
Definition clock_read (w : World) : World :=
  mkWorld (http_calls w) (token_calls w) (S (clock_reads w)) (slept w)
          (sent w) (logged w) (yielded w).

Definition token_posted (w : World) : World :=
  mkWorld (http_calls w) (S (token_calls w)) (clock_reads w) (slept w)
          (sent w) (logged w) (yielded w).

(** The manager after a successful exchange at time [now]. *)
Definition with_token (tok : string) (expires_in : option Z) (now : Z)
           (tm : OAuth2TokenManager) : OAuth2TokenManager :=
  set_expires_at (Some (now + timedelta_seconds (default 3600 expires_in)))
                 (set_token (Some tok) tm).

(** The state after a 401 was answered by one token exchange and the
    headers were rebuilt from the new token. *)
Definition refreshed (env : Env) (rq : Request) (tok : string) (expires_in : option Z)
           (tm : OAuth2TokenManager) (s : APIClient * World) : APIClient * World :=
  let '(c, w) := request_sent rq s in
  (set_auth_manager (Some (with_token tok expires_in (utcnow env (clock_reads w)) tm)) c,
   clock_read (clock_read (token_posted (set_logged (fun l => (l ++ [WarnGot401])%list) w)))).

(** The state once a page is yielded. *)
Definition page_yielded (page : Py.JSON) (s : APIClient * World) : APIClient * World :=
  let '(c, w) := s in (c, set_yielded (fun l => (l ++ [page])%list) w).

(** The parameters of the next request. *)
Definition with_cursor (next_cursor : option Py.JSON) (params : gmap string Py.JSON)
  : gmap string Py.JSON :=
  match next_cursor with
  | Some cursor => if Py.truthy cursor then <[ "cursor" := cursor ]> params else params
  | None => params
  end.

(** The two stop conditions of the specification, read on a page: no
    cursor and no more pages; a page cap that is set and reached. *)
Definition exhausted (members : list (string * Py.JSON)) : bool :=
  negb (got_truthy (Py.dict_get "next_cursor" members))
  && negb (Py.truthy (default (Py.JBool false) (Py.dict_get "has_more" members))).

Definition capped (max_pages : option Z) (pages_fetched : Z) : bool :=
  match max_pages with
  | Some m => negb (m =? 0) && (pages_fetched >=? m)
  | None => false
  end.

(** A caller that makes one call after the other and carries on when a
    call raises. *)
Inductive Call : Type :=
| CallGet (endpoint : string) (params : option (gmap string Py.JSON))
          (retry_on_rate_limit : bool)
| CallPost (endpoint : string) (json data : option Py.JSON).

Definition run_call (env : Env) (call : Call) : CM Py.JSON :=
  match call with
  | CallGet endpoint params retry => get env endpoint params retry
  | CallPost endpoint json data => post env endpoint json data
  end.

Fixpoint run_calls (env : Env) (calls : list Call) (s : APIClient * World)
  : APIClient * World :=
  match calls with
  | [] => s
  | call :: rest => run_calls env rest (snd (run_call env call s))
  end.

(** ** Further scenarios and vocabulary *)

(** A server that answers [first], then 200, with a token endpoint that
    always gives [token]. *)
Definition auth_env (first : Outcome) (token : TokenOutcome) : Env :=
  mkEnv (scripted [first] (ok Py.JNull)) (scripted [] Failed) (fun _ => token) (ticking 0).

Definition not_found : Outcome := Responded (mkResponse 404 ∅ None).

(** A 429 whose [Retry-After] is an HTTP date. *)
Definition http_date_429 : Response :=
  mkResponse 429 {[ "retry-after" := "Wed, 21 Oct 2015 07:28:00 GMT" ]} None.

(** A 200 with the two rate-limit headers. *)
Definition ok_with_rate_limit (remaining limit : string) (data : Py.JSON) : Response :=
  mkResponse 200 {[ "x-ratelimit-remaining" := remaining; "x-ratelimit-limit" := limit ]}
             (Some data).

(** A client whose token manager has never fetched a token. *)
Definition new_auth_client : APIClient :=
  new_client "http://api.example/v1/"
             (Some (new_manager "http://auth.example/token" "id" "secret" 300)) None 30 3.

(** A client with a good token and an API key sent under [name]. *)
Definition key_client (name : string) : APIClient :=
  new_client "http://api.example/v1/" (Some manager_10_minutes_left)
             (Some (mkAPIKeyAuth "k-123" name)) 30 3.

(** The token the client's manager holds, if any. *)
Definition held_token (c : APIClient) : option string :=
  match auth_manager c with
  | Some tm => access_token tm
  | None => None
  end.

(** The waits of [n] passes of exponential backoff starting at [attempt]. *)
Fixpoint backoff_waits (base_delay : Q) (attempt : Z) (n : nat) : list Q :=
  match n with
  | O => []
  | S n' => (Qpower 2 attempt * base_delay)%Q :: backoff_waits base_delay (attempt + 1) n'
  end.

(** Total of a list of waits. *)
Definition total_wait (waits : list Q) : Q := fold_right Qplus 0%Q waits.

(** A 429 that names no [Retry-After], or an empty one. *)
Definition plain_429 (response : Response) : Prop :=
  status_code response = 429
  /\ Py.opt_truthy (headers_get "Retry-After" response) = false.

(** [n] slashes. *)
Fixpoint slashes (n : nat) : string :=
  match n with
  | O => EmptyString
  | S n' => String "/" (slashes n')
  end.

(** No more errors counted than requests. *)
Definition counters_consistent (c : APIClient) : Prop :=
  0 <= error_count c <= request_count c.

(** The requests given to the session between two worlds. *)
Definition sent_between (w w' : World) (requests : list Request) : Prop :=
  sent w' = (sent w ++ requests)%list
  /\ length requests = (http_calls w' - http_calls w)%nat
  /\ (http_calls w <= http_calls w')%nat.

(** What every request of one call of [get] has in common. *)
Definition request_of_get (c : APIClient) (endpoint : string)
           (params : option (gmap string Py.JSON)) (rq : Request) : Prop :=
  req_url rq = url_of c endpoint
  /\ req_params rq = params
  /\ req_timeout rq = timeout c
  /\ req_json rq = None /\ req_data rq = None.

(** A request of [paginate]: the page size, and the caller's parameters
    other than [limit] and [cursor]. *)
Definition request_of_paginate (c : APIClient) (endpoint : string)
           (params : option (gmap string Py.JSON)) (page_size : Z) (rq : Request) : Prop :=
  req_url rq = url_of c endpoint
  /\ exists p, req_params rq = Some p
               /\ p !! "limit" = Some (Py.JNum page_size)
               /\ forall k, k <> "limit" -> k <> "cursor" ->
                            p !! k = default ∅ params !! k.

(** The token endpoint and the clock were left alone. *)
Definition no_token_traffic (w w' : World) : Prop :=
  token_calls w' = token_calls w /\ clock_reads w' = clock_reads w.

(** *** OpenMeteoClient (api_client.py) *)

Module OpenMeteo.

Record OpenMeteoClient : Type := mkOpenMeteoClient {
  client : APIClient
}.

(** [OpenMeteoClient(base_url)]: an [APIClient] with its defaults (no
    credentials, a timeout of 30 seconds, three retries). *)
Definition new_open_meteo_client (base_url : string) : OpenMeteoClient :=
  mkOpenMeteoClient (new_client base_url None None 30 3).

(** [OpenMeteoClient()]. *)
Definition default_open_meteo_client : OpenMeteoClient :=
  new_open_meteo_client "https://api.open-meteo.com/v1".

(** [daily_params or [...]]: the defaults replace [None] and the empty list. *)
Definition daily_or_default (daily_params : option (list string)) : list string :=
  match daily_params with
  | Some (p :: rest) => p :: rest
  | _ => ["temperature_2m_max"; "temperature_2m_min"; "precipitation_sum"]
  end.

(** [get_weather_data]; the coordinates are passed on as they are given. *)
Definition get_weather_data (env : Env) (latitude longitude : Py.JSON)
           (start_date end_date : string) (daily_params : option (list string))
  : M (OpenMeteoClient * World) Py.JSON :=
  fun '(self, w) =>
    let daily_params := daily_or_default daily_params in
    let params : gmap string Py.JSON :=
      {[ "latitude" := latitude;
         "longitude" := longitude;
         "start_date" := Py.JStr start_date;
         "end_date" := Py.JStr end_date;
         "daily" := Py.JStr (String.concat "," daily_params);
         "timezone" := Py.JStr "UTC" ]} in
    let '(r, (c', w')) := get env "forecast" (Some params) true (client self, w) in
    (r, (mkOpenMeteoClient c', w')).

End OpenMeteo.

Import OpenMeteo.

(** A request for weather data. *)
Definition request_of_weather (self : OpenMeteoClient) (latitude longitude : Py.JSON)
           (start_date end_date daily : string) (rq : Request) : Prop :=
  req_url rq = String.append (base_url (client self)) "/forecast"
  /\ req_timeout rq = timeout (client self)
  /\ exists p, req_params rq = Some p
               /\ p !! "latitude" = Some latitude
               /\ p !! "longitude" = Some longitude
               /\ p !! "start_date" = Some (Py.JStr start_date)
               /\ p !! "end_date" = Some (Py.JStr end_date)
               /\ p !! "daily" = Some (Py.JStr daily)
               /\ p !! "timezone" = Some (Py.JStr "UTC")
               /\ size p = 6%nat.

(** ** Verified properties *)

(** *** Rate-limit handler *)

Lemma int_nonempty (s : string) (n : Z) : Py.int s = Some n -> Py.str_truthy s = true.
Proof. destruct s as [|c s]; [discriminate | reflexivity]. Qed.



(** *** Token manager *)



(** *** Metrics *)



(** *** Tactics *)

(** Splits an equation between two results paired with their states. *)
Ltac inv_pair H := inversion H; subst; clear H.

(** *** What each operation leaves alone *)

Lemma count_request_errors_app (l1 l2 : list LogRecord) :
  count_request_errors (l1 ++ l2) = count_request_errors l1 + count_request_errors l2.
Proof. induction l1 as [| r l1 IH]; cbn; [reflexivity | rewrite IH; lia]. Qed.

Lemma same_traffic_refl w : same_traffic w w.
Proof. repeat split. Qed.

Lemma same_traffic_trans w1 w2 w3 :
  same_traffic w1 w2 -> same_traffic w2 w3 -> same_traffic w1 w3.
Proof. unfold same_traffic. intros (? & ? & ? & ?) (? & ? & ? & ?). repeat split; congruence. Qed.

Lemma same_client_refl c : same_client c c.
Proof. repeat split; auto. Qed.

Lemma same_client_trans c1 c2 c3 :
  same_client c1 c2 -> same_client c2 c3 -> same_client c1 c3.
Proof.
  unfold same_client.
  intros (? & ? & ? & ? & ? & ? & ?) (? & ? & ? & ? & ? & ? & ?).
  repeat split; try congruence; tauto.
Qed.

Lemma log_spec (rec : LogRecord) (w : World) :
  log rec w = (Ok tt, set_logged (fun l => (l ++ [rec])%list) w).
Proof. reflexivity. Qed.

Lemma log_same_traffic (rec : LogRecord) (w : World) :
  is_request_error rec = false ->
  same_traffic w (set_logged (fun l => (l ++ [rec])%list) w).
Proof.
  intros H. repeat split. unfold errors_logged. cbn.
  rewrite count_request_errors_app. cbn. rewrite H. lia.
Qed.

Lemma py_int_spec {S} (str : string) (s : S) (r : Result Z) (s' : S) :
  py_int str s = (r, s') ->
  s' = s /\ (r = Raise ValueError \/ exists n, r = Ok n).
Proof.
  unfold py_int. destruct (Py.int str) as [n |]; intros H; inv_pair H; eauto.
Qed.

Lemma time_sleep_spec (seconds : Q) (w : World) (r : Result unit) (w' : World) :
  time_sleep seconds w = (r, w') ->
  (r = Ok tt /\ w' = set_slept (fun l => (l ++ [seconds])%list) w)
  \/ (r = Raise ValueError /\ w' = w).
Proof.
  unfold time_sleep. destruct (Qle_bool 0 seconds); intros H; inv_pair H; auto.
Qed.

(** Case analysis on every [match] of the goal or of a hypothesis. *)
Ltac break_match :=
  match goal with
  | H : context [match ?x with _ => _ end] |- _ => destruct x eqn:?
  | |- context [match ?x with _ => _ end] => destruct x eqn:?
  end.

Ltac same_traffic_tac :=
  repeat split; cbn; unfold errors_logged; cbn;
  rewrite ?count_request_errors_app; cbn; lia || reflexivity.

Lemma handle_rate_limit_spec (self : RateLimitHandler) (response : Response)
      (attempt : Z) (w : World) (r : Result unit) (w' : World) :
  handle_rate_limit self response attempt w = (r, w') ->
  same_traffic w w'
  /\ (r = Ok tt \/ r = Raise ValueError
      \/ (r = Raise (RuntimeError (RateLimitExceededAfter attempt))
          /\ max_retries self <= attempt)).
Proof.
  unfold handle_rate_limit, bind, py_int, log, time_sleep, modify, ret, raise.
  intros H. repeat break_match; inv_pair H; try discriminate.
  all: repeat match goal with H : (_, _) = (_, _) |- _ => inv_pair H end.
  all: split; [same_traffic_tac | auto].
  right. right. split; [reflexivity | lia].
Qed.

Lemma check_rate_limit_headers_spec (self : RateLimitHandler) (response : Response)
      (w : World) (r : Result unit) (w' : World) :
  check_rate_limit_headers self response w = (r, w') ->
  w' = w /\ (r = Ok tt \/ r = Raise ValueError).
Proof.
  unfold check_rate_limit_headers, bind, py_int, ret, raise.
  intros H. repeat break_match; inv_pair H; try discriminate.
  all: repeat match goal with H : (_, _) = (_, _) |- _ => inv_pair H end.
  all: auto.
Qed.

Lemma quiet_world_refl w : quiet_world w w.
Proof. split; [apply same_traffic_refl | reflexivity]. Qed.

Lemma quiet_world_trans w1 w2 w3 :
  quiet_world w1 w2 -> quiet_world w2 w3 -> quiet_world w1 w3.
Proof.
  intros [T1 S1] [T2 S2]. split; [eapply same_traffic_trans; eassumption | congruence].
Qed.

Ltac quiet_tac :=
  split; [same_traffic_tac | reflexivity].

Ltac benign_tac :=
  cbn; first [exact I | split; [reflexivity | intros ?; discriminate]].

Lemma benign_raise {A B} (e : Exn) : benign (@Raise A e) -> benign (@Raise B e).
Proof. exact (fun H => H). Qed.

Lemma not_benign_out_of_fuel {A} : ~ benign (@OutOfFuel A).
Proof. exact (fun H => H). Qed.

(** The token manager talks to the token endpoint and reads the clock,
    nothing else; none of its methods loops. *)
Lemma _fetch_new_token_quiet (env : Env) (tm : OAuth2TokenManager) (w : World)
      (r : Result unit) (tm' : OAuth2TokenManager) (w' : World) :
  _fetch_new_token env (tm, w) = (r, (tm', w')) ->
  quiet_world w w' /\ benign r /\ token_calls w' = S (token_calls w).
Proof.
  unfold _fetch_new_token, bind, on_snd, post_token, datetime_utcnow, log, modify, raise.
  intros H. cbn in H. repeat break_match; inv_pair H; try discriminate.
  all: repeat match goal with H : (_, _) = (_, _) |- _ => inv_pair H end.
  all: split; [quiet_tac | split; [benign_tac | reflexivity]].
Qed.

Lemma _needs_refresh_quiet (env : Env) (tm : OAuth2TokenManager) (w : World)
      (r : Result bool) (tm' : OAuth2TokenManager) (w' : World) :
  _needs_refresh env (tm, w) = (r, (tm', w')) ->
  quiet_world w w' /\ tm' = tm /\ exists b, r = Ok b.
Proof.
  unfold _needs_refresh, bind, gets, on_snd, datetime_utcnow, ret. cbn.
  intros H. repeat break_match; inv_pair H; try discriminate.
  all: repeat match goal with H : (_, _) = (_, _) |- _ => inv_pair H end.
  all: split; [quiet_tac | split; [reflexivity | eauto]].
Qed.

Lemma get_access_token_quiet (env : Env) (tm : OAuth2TokenManager) (w : World)
      (r : Result string) (tm' : OAuth2TokenManager) (w' : World) :
  get_access_token env (tm, w) = (r, (tm', w')) ->
  quiet_world w w' /\ benign r.
Proof.
  unfold get_access_token, bind.
  destruct (_needs_refresh env (tm, w)) as [r0 [tm0 w0]] eqn:Hn.
  apply _needs_refresh_quiet in Hn. destruct Hn as (Hq0 & -> & b & ->).
  destruct b.
  - destruct (_fetch_new_token env (tm, w0)) as [r1 [tm1 w1]] eqn:Hf.
    apply _fetch_new_token_quiet in Hf. destruct Hf as (Hq1 & Hb & _).
    pose proof (quiet_world_trans _ _ _ Hq0 Hq1) as Hq.
    unfold gets, ret, raise. cbn.
    intros H. repeat break_match; inv_pair H; try (split; [exact Hq | benign_tac]).
    all: try (split; [exact Hq | exact (benign_raise _ Hb)]).
    all: destruct (not_benign_out_of_fuel Hb).
  - unfold gets, ret, raise. cbn.
    intros H. repeat break_match; inv_pair H; split; [exact Hq0 | benign_tac | exact Hq0 | benign_tac].
Qed.

Lemma on_manager_quiet {A} (m : TM A) (c : APIClient) (w : World)
      (r : Result A) (c' : APIClient) (w' : World) :
  (forall tm w0 r0 tm' w0', m (tm, w0) = (r0, (tm', w0')) ->
                            quiet_world w0 w0' /\ benign r0) ->
  on_manager m (c, w) = (r, (c', w')) ->
  same_client c c' /\ quiet_world w w' /\ benign r.
Proof.
  intros Hm. unfold on_manager. destruct (auth_manager c) as [tm |] eqn:Ha.
  - destruct (m (tm, w)) as [r0 [tm' w0']] eqn:Hrun. intros H. inv_pair H.
    apply Hm in Hrun. destruct Hrun as [Hq Hf].
    split; [| split; assumption].
    repeat split; cbn; try reflexivity; intros; congruence.
  - intros H. inv_pair H.
    split; [apply same_client_refl | split; [apply quiet_world_refl | benign_tac]].
Qed.

Lemma _get_headers_quiet (env : Env) (c : APIClient) (w : World)
      (r : Result (gmap string string)) (c' : APIClient) (w' : World) :
  _get_headers env (c, w) = (r, (c', w')) ->
  same_client c c' /\ quiet_world w w' /\ benign r.
Proof.
  unfold _get_headers, bind, gets, ret. cbn [fst].
  destruct (auth_manager c) eqn:Ha.
  - destruct (on_manager (get_access_token env) (c, w)) as [r0 [c0 w0]] eqn:Hm.
    apply (on_manager_quiet _ _ _ _ _ _ (get_access_token_quiet env)) in Hm.
    destruct Hm as (Hc & Hq & Hf).
    intros H. repeat break_match; inv_pair H; try discriminate.
    all: repeat match goal with H : (_, _) = (_, _) |- _ => inv_pair H end.
    all: try (split; [assumption | split; [assumption | benign_tac]]).
    all: try congruence.
    all: try (split; [assumption | split; [assumption | exact (benign_raise _ Hf)]]).
    all: destruct (not_benign_out_of_fuel Hf).
  - intros H. repeat break_match; inv_pair H.
    all: split; [apply same_client_refl | split; [apply quiet_world_refl | benign_tac]].
Qed.

(** *** The retry loop of [get] *)

Lemma get_try_spec (env : Env) (url : string) (params : option (gmap string Py.JSON))
      (retry : bool) (attempt : Z) (headers : gmap string string)
      (c : APIClient) (w : World) (r : Result Flow) (c' : APIClient) (w' : World) :
  get_try env url params retry attempt headers (c, w) = (r, (c', w')) ->
  one_attempt retry attempt c w r c' w'.
Proof.
  unfold get_try, bind, incr_request_count, modify, gets, on_snd, call_session.
  cbn [fst snd timeout].
  set (rq := mkRequest _ _ _ _ _ _).
  destruct (session_get env (http_calls w) rq) as [response | |].
  2,3: intros H; inv_pair H; unfold one_attempt; cbn;
       repeat split; try discriminate; try reflexivity; intros; discriminate.
  destruct ((status_code response =? 429) && retry) eqn:H429.
  { cbn [rate_limit_handler set_request_count].
    destruct (handle_rate_limit _ _ _ _) as [r0 w0] eqn:Hh.
    apply handle_rate_limit_spec in Hh. destruct Hh as [(Hc & Hs & He & Hy) Hr].
    cbn in Hc, Hs, He, Hy.
    assert (Hretry : retry = false -> slept w0 = slept w).
    { intros ->. rewrite andb_false_r in H429. discriminate. }
    intros H. unfold one_attempt. cbn.
    destruct r0 as [[] | e |]; inv_pair H; cbn.
    - repeat split; try assumption; try discriminate; try reflexivity.
      intros a h Heq. inversion Heq. reflexivity.
    - repeat split; try assumption; try discriminate; try reflexivity.
      intros Hlt a Heq. inversion Heq; subst.
      destruct Hr as [Hr | [Hr | [Hr Hle]]]; try discriminate.
      apply andb_prop in H429. destruct H429 as [_ ->].
      specialize (Hlt eq_refl). lia.
    - destruct Hr as [Hr | [Hr | [Hr Hle]]]; discriminate. }
  destruct ((status_code response =? 401) && bool_decide (is_Some (auth_manager _))) eqn:H401.
  { unfold log, modify. cbn [fst snd].
    match goal with |- context [on_manager ?m ?s] => destruct (on_manager m s) as [r1 [c1 w1]] eqn:Hf end.
    apply (on_manager_quiet (_fetch_new_token env)) in Hf.
    2: { intros. apply _fetch_new_token_quiet in H. tauto. }
    destruct Hf as (Hc1 & [(Hh1 & Hs1 & He1 & Hy1) Hsl1] & Hb1).
    cbn in Hh1, Hs1, He1, Hy1, Hsl1.
    unfold errors_logged in He1. cbn in He1. rewrite count_request_errors_app in He1. cbn in He1.
    destruct Hc1 as (Crq & Cer & Crl & _). cbn in Crq, Cer, Crl.
    destruct r1 as [[] | e |].
    - destruct (_get_headers env (c1, w1)) as [r2 [c2 w2]] eqn:Hg.
      apply _get_headers_quiet in Hg.
      destruct Hg as ((Crq2 & Cer2 & Crl2 & _) & [(Hh2 & Hs2 & He2 & Hy2) Hsl2] & Hb2).
      intros H. unfold one_attempt.
      destruct r2 as [h2 | e |]; inv_pair H; cbn.
      + repeat split; try congruence; try lia;
          try (unfold errors_logged in *; lia).
      + repeat split; try congruence; try lia;
          try (unfold errors_logged in *; lia).
        all: try (intros _ a Heq; inversion Heq; subst; destruct Hb2 as [_ Hb2]; eapply Hb2; reflexivity).
      + destruct (not_benign_out_of_fuel Hb2).
    - intros H. inv_pair H. unfold one_attempt. cbn.
      repeat split; try congruence; try lia;
          try (unfold errors_logged in *; lia).
      all: try (intros _ a Heq; inversion Heq; subst; destruct Hb1 as [_ Hb1]; eapply Hb1; reflexivity).
    - destruct (not_benign_out_of_fuel Hb1). }
  cbn [rate_limit_handler set_request_count].
  destruct (check_rate_limit_headers _ _ _) as [r0 w0] eqn:Hck.
  apply check_rate_limit_headers_spec in Hck. destruct Hck as [-> Hr0].
  unfold raise_for_status, response_json, raise, ret.
  intros H. unfold one_attempt.
  destruct Hr0 as [-> | ->]; repeat break_match; inv_pair H; cbn.
  all: repeat match goal with H : (_, _) = (_, _) |- _ => inv_pair H end.
  all: try discriminate.
  all: cbn; repeat split; try discriminate; try reflexivity; intros; discriminate.
Qed.

Lemma get_loop_spec (env : Env) (url : string) (params : option (gmap string Py.JSON))
      (retry : bool) (max_attempts : Z) (fuel : nat) :
  forall (attempt : Z) (headers : gmap string string)
         (c : APIClient) (w : World) (r : Result Py.JSON) (c' : APIClient) (w' : World),
    get_loop env url params retry max_attempts fuel attempt headers (c, w) = (r, (c', w')) ->
    loop_post retry max_attempts fuel attempt c w r c' w'.
Proof.
  induction fuel as [| fuel IH]; intros attempt headers c w r c' w'; cbn [get_loop].
  - destruct (attempt <? max_attempts) eqn:Hlt; intros H; inv_pair H;
      unfold loop_post, balanced; repeat split; try lia; try discriminate.
  - destruct (attempt <? max_attempts) eqn:Hlt.
    2: { intros H; inv_pair H;
         unfold loop_post, balanced; repeat split; try lia; try discriminate. }
    unfold bind at 1. unfold try_except.
    destruct (get_try env url params retry attempt headers (c, w)) as [r0 [c0 w0]] eqn:Ht.
    apply get_try_spec in Ht.
    destruct Ht as (Hh & He & Hy & Hrq & Her & Hrl & Hf & Hsl & Hcont & Hnr).
    destruct r0 as [[data | attempt' headers'] | e |].
    + intros H. inv_pair H. unfold loop_post, balanced.
      repeat split; try lia; try discriminate; assumption.
    + specialize (Hcont _ _ eq_refl). subst attempt'.
      intros H. apply IH in H.
      destruct H as ([B1 B2] & Hy' & Hrl' & Hf' & Hsl' & Hnr' & Hn' & Hel').
      unfold loop_post, balanced. rewrite Hrl in *.
      repeat split; try lia; try congruence.
      all: try (intros Hfuel; apply Hf'; lia).
      all: try (intros Hr; rewrite Hsl', Hsl; auto).
      all: try (intros Hr a; apply Hnr'; intros Hret; specialize (Hr Hret); lia).
    + assert (Hstop : forall (rec : LogRecord) r1 c1 w1,
                 is_request_error rec = true ->
                 (incr_error_count ;; on_snd (log rec) ;; raise e) (c0, w0)
                 = (r1, (c1, w1)) ->
                 r1 = Raise e ->
                 (forall a, e <> RuntimeError (RateLimitExceededAfter a)) ->
                 loop_post retry max_attempts (S fuel) attempt c w r1 c1 w1).
      { intros rec r1 c1 w1 Hrec Hrun -> Hne. cbn in Hrun. inv_pair Hrun.
        unfold loop_post, balanced, errors_logged. cbn.
        rewrite count_request_errors_app. cbn. rewrite Hrec.
        unfold errors_logged in He.
        repeat split; try lia; try discriminate; try assumption.
        intros _ a Heq. inversion Heq. eapply Hne; eassumption. }
      destruct e.
      * (* Timeout *)
        unfold bind, incr_error_count, modify, on_snd, log, raise, ret. cbn [fst snd].
        destruct (attempt >=? max_attempts - 1) eqn:Hlast.
        -- intros H. inv_pair H.
           unfold loop_post, balanced, errors_logged. cbn.
           rewrite count_request_errors_app. cbn. unfold errors_logged in He.
           repeat split; try lia; try discriminate; assumption.
        -- intros H. apply IH in H.
           destruct H as ([B1 B2] & Hy' & Hrl' & Hf' & Hsl' & Hnr' & Hn' & Hel').
           cbn in B1, B2, Hy', Hrl', Hsl', Hnr', Hn', Hel'.
           unfold errors_logged in B2, He, Hel'. cbn in B2, Hel'.
           rewrite count_request_errors_app in B2, Hel'. cbn in B2, Hel'.
           unfold loop_post, balanced, errors_logged. rewrite Hrl in *.
           repeat split; try lia; try congruence.
           all: try (intros Hfuel; apply Hf'; lia).
           all: try (intros Hr; rewrite Hsl', Hsl; auto).
           all: try (intros Hr a; apply Hnr'; intros Hret; specialize (Hr Hret); lia).
      * intros H. eapply (Hstop ErrHTTP); [reflexivity | exact H | | intros; discriminate].
        cbn in H. inv_pair H. reflexivity.
      * intros H. eapply (Hstop ErrRequestFailed); [reflexivity | exact H | | intros; discriminate].
        cbn in H. inv_pair H. reflexivity.
      * intros H. cbn in H. inv_pair H. unfold loop_post, balanced.
        repeat split; try lia; try discriminate; try assumption.
        intros Hr a Heq. inversion Heq; subst.
        eapply Hnr; [intros Hret; specialize (Hr Hret); lia | reflexivity].
      * intros H. cbn in H. inv_pair H. unfold loop_post, balanced.
        repeat split; try lia; try discriminate; assumption.
      * intros H. cbn in H. inv_pair H. unfold loop_post, balanced.
        repeat split; try lia; try discriminate; assumption.
      * intros H. cbn in H. inv_pair H. unfold loop_post, balanced.
        repeat split; try lia; try discriminate; assumption.
    + congruence.
Qed.

Lemma get_spec (env : Env) (endpoint : string) (params : option (gmap string Py.JSON))
      (retry : bool) (c : APIClient) (w : World) (r : Result Py.JSON)
      (c' : APIClient) (w' : World) :
  get env endpoint params retry (c, w) = (r, (c', w')) ->
  call_post retry c w r c' w'.
Proof.
  unfold get, bind at 1, gets. cbn [fst]. unfold bind at 1.
  destruct (_get_headers env (c, w)) as [r0 [c0 w0]] eqn:Hh.
  apply _get_headers_quiet in Hh.
  destruct Hh as ((Crq & Cer & Crl & _) & [(Hh & Hs & He & Hy) Hsl] & Hb).
  destruct r0 as [headers | e |].
  - intros H. apply get_loop_spec in H.
    destruct H as ([B1 B2] & Hy' & Hrl' & Hf' & Hsl' & Hnr' & Hn' & Hel').
    unfold call_post, balanced. repeat split; try lia; try congruence.
    all: try (apply Hf'; lia).
    all: try (rewrite Hsl'; auto).
    all: try (apply Hnr'; intros ->; rewrite Crl; lia).
    all: try (subst retry; lia).
  - intros H. inv_pair H. unfold call_post, balanced.
    repeat split; try lia; try congruence; try discriminate.
    destruct Hb as [_ Hb]. intros a Heq. inversion Heq; subst. eapply Hb. reflexivity.
  - destruct (not_benign_out_of_fuel Hb).
Qed.

Lemma post_spec (env : Env) (endpoint : string) (json data : option Py.JSON)
      (c : APIClient) (w : World) (r : Result Py.JSON) (c' : APIClient) (w' : World) :
  post env endpoint json data (c, w) = (r, (c', w')) ->
  call_post false c w r c' w'.
Proof.
  unfold post, bind at 1, gets. cbn [fst]. unfold bind at 1.
  destruct (_get_headers env (c, w)) as [r0 [c0 w0]] eqn:Hh.
  apply _get_headers_quiet in Hh.
  destruct Hh as ((Crq & Cer & Crl & _) & [(Hh & Hs & He & Hy) Hsl] & Hb).
  destruct r0 as [headers | e |].
  - unfold try_except, bind, incr_request_count, incr_error_count, modify, on_snd,
      call_session, raise_for_status, response_json, log, raise, ret.
    cbn [fst snd].
    destruct (session_post env _ _) as [response | |]; cbn.
    1: destruct ((400 <=? status_code response) && (status_code response <? 600)); cbn.
    2: destruct (body response); cbn.
    all: intros H; inv_pair H.
    all: unfold call_post, balanced, errors_logged in *; cbn in *.
    all: rewrite ?count_request_errors_app; cbn.
    all: repeat split; try lia; try congruence; try discriminate.
  - intros H. inv_pair H. unfold call_post, balanced.
    repeat split; try lia; try congruence; try discriminate.
    destruct Hb as [_ Hb]. intros a Heq. inversion Heq; subst. eapply Hb. reflexivity.
  - destruct (not_benign_out_of_fuel Hb).
Qed.

(** [get] and [post] always end: the fuel given to the loop is never used up. *)
Lemma get_terminates (env : Env) (endpoint : string)
      (params : option (gmap string Py.JSON)) (retry : bool) (s : APIClient * World) :
  fst (get env endpoint params retry s) <> OutOfFuel.
Proof.
  destruct s as [c w].
  destruct (get env endpoint params retry (c, w)) as [r [c' w']] eqn:Hget.
  apply get_spec in Hget. destruct Hget as (_ & _ & _ & Hfuel & _). exact Hfuel.
Qed.

Lemma post_terminates (env : Env) (endpoint : string) (json data : option Py.JSON)
      (s : APIClient * World) :
  fst (post env endpoint json data s) <> OutOfFuel.
Proof.
  destruct s as [c w].
  destruct (post env endpoint json data (c, w)) as [r [c' w']] eqn:Hpost.
  apply post_spec in Hpost. destruct Hpost as (_ & _ & _ & Hfuel & _). exact Hfuel.
Qed.

(** *** Equations for one pass of the loop *)

Lemma check_rate_limit_headers_eq (self : RateLimitHandler) (response : Response) (w : World) :
  check_rate_limit_headers self response w
  = (if rate_limit_headers_ok response then Ok tt else Raise ValueError, w).
Proof.
  unfold check_rate_limit_headers, rate_limit_headers_ok, bind, py_int, ret, raise.
  destruct (Py.opt_truthy _ && Py.opt_truthy _); [| reflexivity].
  destruct (Py.int (default "" (headers_get "X-RateLimit-Remaining" response)));
    [| reflexivity].
  destruct (Py.int (default "" (headers_get "X-RateLimit-Limit" response))); reflexivity.
Qed.

(** One pass through the [try] body, by what the session answers. *)
Lemma get_try_eq (env : Env) (url : string) (params : option (gmap string Py.JSON))
      (retry : bool) (attempt : Z) (headers : gmap string string)
      (c : APIClient) (w : World) :
  let rq := get_request c url params headers in
  let s1 := request_sent rq (c, w) in
  get_try env url params retry attempt headers (c, w)
  = match session_get env (http_calls w) rq with
    | TimedOut => (Raise Timeout, s1)
    | Failed => (Raise RequestException, s1)
    | Responded response =>
        if (status_code response =? 429) && retry then
          (on_snd (handle_rate_limit (rate_limit_handler c) response attempt) ;;
           ret (Continue (attempt + 1) headers)) s1
        else if (status_code response =? 401) && bool_decide (is_Some (auth_manager c)) then
          (on_snd (log WarnGot401) ;;
           on_manager (_fetch_new_token env) ;;
           headers' <- _get_headers env ;;
           ret (Continue (attempt + 1) headers')) s1
        else if negb (rate_limit_headers_ok response) then (Raise ValueError, s1)
        else if is_error_status (status_code response)
        then (Raise (HTTPError (status_code response)), s1)
        else match body response with
             | Some data => (Ok (Return data), s1)
             | None => (Raise RequestException, s1)
             end
    end.
Proof.
  unfold get_try, get_request, request_sent.
  unfold bind at 1, incr_request_count, modify.
  unfold bind at 1, gets. cbn [fst].
  unfold bind at 1. unfold on_snd at 1. unfold call_session.
  cbn [timeout set_request_count rate_limit_handler auth_manager].
  destruct (session_get env (http_calls w) _) as [response | |]; try reflexivity.
  destruct ((status_code response =? 429) && retry); [reflexivity |].
  destruct ((status_code response =? 401) && _); [reflexivity |].
  unfold bind at 1. unfold on_snd at 1. rewrite check_rate_limit_headers_eq.
  destruct (rate_limit_headers_ok response); [| reflexivity].
  unfold bind, raise_for_status, response_json, is_error_status, raise, ret. cbn.
  destruct ((400 <=? status_code response) && (status_code response <? 600)); [reflexivity |].
  destruct (body response); reflexivity.
Qed.

(** One pass through the loop of [get]. *)
Lemma get_loop_eq (env : Env) (url : string) (params : option (gmap string Py.JSON))
      (retry : bool) (max_attempts : Z) (fuel : nat) (attempt : Z)
      (headers : gmap string string) (s : APIClient * World) :
  attempt < max_attempts ->
  get_loop env url params retry max_attempts (S fuel) attempt headers s
  = match get_try env url params retry attempt headers s with
    | (Ok (Return data), s') => (Ok data, s')
    | (Ok (Continue attempt' headers'), s') =>
        get_loop env url params retry max_attempts fuel attempt' headers' s'
    | (Raise Timeout, s') =>
        if attempt >=? max_attempts - 1
        then (Raise Timeout, error_counted ErrTimeout s')
        else get_loop env url params retry max_attempts fuel (attempt + 1) headers
                      (error_counted ErrTimeout s')
    | (Raise (HTTPError status), s') => (Raise (HTTPError status), error_counted ErrHTTP s')
    | (Raise RequestException, s') =>
        (Raise RequestException, error_counted ErrRequestFailed s')
    | (Raise e, s') => (Raise e, s')
    | (OutOfFuel, s') => (OutOfFuel, s')
    end.
Proof.
  intros Hlt. cbn [get_loop].
  replace (attempt <? max_attempts) with true by lia.
  unfold bind at 1, try_except.
  destruct (get_try env url params retry attempt headers s) as [[[data | a h] | e |] [c1 w1]];
    try reflexivity.
  destruct e; try reflexivity.
  unfold bind, incr_error_count, modify, on_snd, log, raise, ret, error_counted.
  cbn [fst snd]. destruct (attempt >=? max_attempts - 1); reflexivity.
Qed.

Lemma get_loop_exhausted (env : Env) (url : string) (params : option (gmap string Py.JSON))
      (retry : bool) (max_attempts : Z) (fuel : nat) (attempt : Z)
      (headers : gmap string string) (s : APIClient * World) :
  max_attempts <= attempt ->
  get_loop env url params retry max_attempts fuel attempt headers s
  = (Raise (RuntimeError (FailedAfterAttempts max_attempts)), s).
Proof.
  intros Hge. destruct fuel; cbn [get_loop];
    replace (attempt <? max_attempts) with false by lia; reflexivity.
Qed.

(** [get] once the headers are built. *)
Lemma get_eq (env : Env) (endpoint : string) (params : option (gmap string Py.JSON))
      (retry : bool) (c : APIClient) (w : World)
      (headers : gmap string string) (s1 : APIClient * World) :
  _get_headers env (c, w) = (Ok headers, s1) ->
  let max_attempts := if retry then max_retries (rate_limit_handler c) else 1 in
  get env endpoint params retry (c, w)
  = get_loop env (url_of c endpoint) params retry max_attempts
             (Z.to_nat max_attempts) 0 headers s1.
Proof.
  intros Hh. unfold get, bind at 1, gets. cbn [fst]. unfold bind at 1. rewrite Hh.
  reflexivity.
Qed.

(** The 401 branch either asks for another pass or raises something no
    except clause of [get] catches. *)
Lemma refresh_branch_spec (env : Env) (attempt : Z) (s : APIClient * World)
      (r : Result Flow) (s' : APIClient * World) :
  (on_snd (log WarnGot401) ;;
   on_manager (_fetch_new_token env) ;;
   headers' <- _get_headers env ;;
   ret (Continue (attempt + 1) headers')) s = (r, s') ->
  (exists h, r = Ok (Continue (attempt + 1) h))
  \/ (exists e, r = Raise e /\ is_request_exception e = false).
Proof.
  destruct s as [c w]. destruct s' as [c' w'].
  unfold bind at 1, on_snd at 1, log, modify. unfold bind at 1.
  match goal with |- context [on_manager ?m ?s] =>
    destruct (on_manager m s) as [r1 [c1 w1]] eqn:Hf end.
  apply (on_manager_quiet (_fetch_new_token env)) in Hf.
  2: { intros tm w0 r0 tm' w0' H. apply _fetch_new_token_quiet in H. tauto. }
  destruct Hf as (_ & _ & Hb1).
  destruct r1 as [[] | e |].
  - unfold bind at 1.
    destruct (_get_headers env (c1, w1)) as [r2 [c2 w2]] eqn:Hg.
    apply _get_headers_quiet in Hg. destruct Hg as (_ & _ & Hb2).
    destruct r2 as [h | e |]; intros H; inv_pair H.
    + left. eauto.
    + right. exists e. split; [reflexivity | apply Hb2].
    + destruct Hb2.
  - intros H. inv_pair H. right. exists e. split; [reflexivity | apply Hb1].
  - destruct Hb1.
Qed.

(** *** A call without retries *)



(** *** Transient errors and persistent rate limiting *)





(** *** Re-authentication on 401 *)

Lemma _fetch_new_token_ok (env : Env) (tm : OAuth2TokenManager) (w : World)
      (tok : string) (expires_in : option Z) :
  token_post env (token_calls w) = TokenJson (Some tok) expires_in ->
  _fetch_new_token env (tm, w)
  = (Ok tt, (with_token tok expires_in (utcnow env (clock_reads w)) tm,
             clock_read (token_posted w))).
Proof.
  intros Htoken.
  unfold _fetch_new_token, bind, on_snd, post_token, datetime_utcnow, modify.
  rewrite Htoken. reflexivity.
Qed.

Lemma get_access_token_held (env : Env) (tm : OAuth2TokenManager) (w : World)
      (tok : string) (expires_at : Z) :
  access_token tm = Some tok ->
  Py.str_truthy tok = true ->
  token_expires_at tm = Some expires_at ->
  utcnow env (clock_reads w)
  < expires_at - timedelta_seconds (refresh_buffer_seconds tm) ->
  get_access_token env (tm, w) = (Ok tok, (tm, clock_read w)).
Proof.
  intros Htok Htruthy Hexp Hnow.
  unfold get_access_token, _needs_refresh, bind, gets, on_snd, datetime_utcnow, ret.
  cbn [fst snd]. rewrite Hexp, Htok. cbn [Py.opt_truthy]. rewrite Htruthy.
  replace (_ >=? _) with false by lia.
  cbn [fst]. rewrite Htok. cbn [Py.opt_truthy default]. rewrite Htruthy. reflexivity.
Qed.

Lemma _get_headers_held (env : Env) (c : APIClient) (w : World)
      (tm : OAuth2TokenManager) (tok : string) (expires_at : Z) :
  auth_manager c = Some tm ->
  access_token tm = Some tok ->
  Py.str_truthy tok = true ->
  token_expires_at tm = Some expires_at ->
  utcnow env (clock_reads w)
  < expires_at - timedelta_seconds (refresh_buffer_seconds tm) ->
  _get_headers env (c, w)
  = (Ok (built_headers (Some tok) (api_key_auth c)), (c, clock_read w)).
Proof.
  intros Hauth Htok Htruthy Hexp Hnow.
  unfold _get_headers, bind at 1, gets. cbn [fst]. rewrite Hauth.
  unfold bind at 1, bind at 1, on_manager. rewrite Hauth.
  rewrite (get_access_token_held env tm w tok expires_at Htok Htruthy Hexp Hnow).
  assert (Hc : set_auth_manager (Some tm) c = c).
  { destruct c. cbn in Hauth. subst. reflexivity. }
  rewrite Hc. unfold ret, built_headers. destruct (api_key_auth c); reflexivity.
Qed.




(** *** Pagination *)

Lemma paginate_loop_eq (env : Env) (endpoint : string) (max_pages : option Z)
      (fuel : nat) (params : gmap string Py.JSON) (page_count : Z)
      (next_cursor : option Py.JSON) (s : APIClient * World) :
  paginate_loop env endpoint max_pages (S fuel) params page_count next_cursor s
  = match get env endpoint (Some (with_cursor next_cursor params)) true s with
    | (Ok (Py.JObj members), s1) =>
        let s2 := page_yielded (Py.JObj members) s1 in
        if exhausted members then (Ok tt, s2)
        else if capped max_pages (page_count + 1)
             then (Ok tt, (fst s2, set_logged
                                     (fun l => (l ++ [WarnMaxPages (default 0 max_pages)])%list)
                                     (snd s2)))
             else paginate_loop env endpoint max_pages fuel (with_cursor next_cursor params)
                                (page_count + 1) (Py.dict_get "next_cursor" members) s2
    | (Ok page, s1) => (Raise AttributeError, page_yielded page s1)
    | (Raise e, s1) => (Raise e, s1)
    | (OutOfFuel, s1) => (OutOfFuel, s1)
    end.
Proof.
  cbn [paginate_loop]. fold (with_cursor next_cursor params).
  unfold bind at 1.
  destruct (get env endpoint (Some (with_cursor next_cursor params)) true s)
    as [[page | e |] [c1 w1]]; try reflexivity.
  unfold bind at 1, yield, on_snd, modify, page_yielded.
  destruct page; try reflexivity.
  fold (exhausted members). destruct (exhausted members); [reflexivity |].
  unfold capped, max_pages_truthy.
  destruct max_pages as [m |]; [| reflexivity].
  change (default 0 (Some m)) with m.
  destruct (negb (m =? 0) && (page_count + 1 >=? m)); reflexivity.
Qed.

(** A successful attempt of a client without token manager. *)
Lemma get_ok_without_manager (env : Env) (endpoint : string)
      (params : option (gmap string Py.JSON)) (c : APIClient) (w : World)
      (response : Response) (data : Py.JSON) :
  auth_manager c = None ->
  1 <= max_retries (rate_limit_handler c) ->
  let rq := get_request c (url_of c endpoint) params (built_headers None (api_key_auth c)) in
  session_get env (http_calls w) rq = Responded response ->
  is_error_status (status_code response) = false ->
  rate_limit_headers_ok response = true ->
  body response = Some data ->
  get env endpoint params true (c, w) = (Ok data, request_sent rq (c, w)).
Proof.
  intros Hauth Hmax rq Hresp Herr Hok Hbody.
  assert (Hh : _get_headers env (c, w) = (Ok (built_headers None (api_key_auth c)), (c, w))).
  { unfold _get_headers, bind, gets, ret, built_headers. cbn [fst]. rewrite Hauth.
    destruct (api_key_auth c); reflexivity. }
  rewrite (get_eq _ _ _ _ _ _ _ _ Hh). cbv zeta.
  destruct (Z.to_nat (max_retries (rate_limit_handler c))) as [| fuel] eqn:Hfuel; [lia |].
  rewrite get_loop_eq by lia. rewrite get_try_eq. cbv zeta. fold rq. rewrite Hresp.
  assert (H429 : (status_code response =? 429) = false)
    by (unfold is_error_status in Herr; lia).
  assert (H401 : (status_code response =? 401) = false)
    by (unfold is_error_status in Herr; lia).
  rewrite H429, H401, Hok, Herr, Hbody. reflexivity.
Qed.

Section RepeatedCursor.
Variables (env : Env) (endpoint : string) (response : Response)
          (members : list (string * Py.JSON)) (cursor : Py.JSON).
Hypothesis always : forall n rq, session_get env n rq = Responded response.
Hypothesis status_ok : is_error_status (status_code response) = false.
Hypothesis headers_ok : rate_limit_headers_ok response = true.
Hypothesis body_page : body response = Some (Py.JObj members).
Hypothesis has_cursor : Py.dict_get "next_cursor" members = Some cursor.
Hypothesis cursor_truthy : Py.truthy cursor = true.

Lemma repeated_not_exhausted : exhausted members = false.
Proof using has_cursor cursor_truthy.
  unfold exhausted. rewrite has_cursor. cbn. rewrite cursor_truthy. reflexivity.
Qed.

Lemma paginate_loop_repeated_uncapped (fuel : nat) :
  forall params page_count next_cursor c w,
    auth_manager c = None ->
    1 <= max_retries (rate_limit_handler c) ->
    exists c' w',
      paginate_loop env endpoint None fuel params page_count next_cursor (c, w)
      = (OutOfFuel, (c', w'))
      /\ yielded w' = (yielded w ++ repeat (Py.JObj members) fuel)%list
      /\ http_calls w' = (http_calls w + fuel)%nat.
Proof using All.
  induction fuel as [| fuel IH]; intros params page_count next_cursor c w Hauth Hmax.
  - exists c, w. cbn. rewrite app_nil_r. repeat split. lia.
  - rewrite paginate_loop_eq.
    rewrite (get_ok_without_manager env endpoint _ c w response (Py.JObj members)
               Hauth Hmax (always _ _) status_ok headers_ok body_page).
    cbv zeta. rewrite repeated_not_exhausted. cbn [capped].
    unfold page_yielded, request_sent.
    match goal with |- context [paginate_loop _ _ _ _ ?p ?n ?nc (?c1, ?w1)] =>
      destruct (IH p n nc c1 w1) as (c' & w' & Hrun & Hy & Hh) end.
    { exact Hauth. } { exact Hmax. }
    exists c', w'. rewrite Hrun. split; [reflexivity |].
    cbn in Hy, Hh. rewrite Hy, Hh. rewrite <- app_assoc. split; [reflexivity | lia].
Qed.

Lemma paginate_loop_repeated_capped (m : Z) (fuel : nat) :
  forall params page_count next_cursor c w,
    auth_manager c = None ->
    1 <= max_retries (rate_limit_handler c) ->
    0 <= page_count < m ->
    m - page_count <= Z.of_nat fuel ->
    exists c' w',
      paginate_loop env endpoint (Some m) fuel params page_count next_cursor (c, w)
      = (Ok tt, (c', w'))
      /\ yielded w'
         = (yielded w ++ repeat (Py.JObj members) (Z.to_nat (m - page_count)))%list
      /\ logged w' = (logged w ++ [WarnMaxPages m])%list
      /\ http_calls w' = (http_calls w + Z.to_nat (m - page_count))%nat.
Proof using All.
  induction fuel as [| fuel IH];
    intros params page_count next_cursor c w Hauth Hmax Hpc Hfuel; [lia |].
  rewrite paginate_loop_eq.
  rewrite (get_ok_without_manager env endpoint _ c w response (Py.JObj members)
             Hauth Hmax (always _ _) status_ok headers_ok body_page).
  cbv zeta. rewrite repeated_not_exhausted. unfold capped.
  replace (negb (m =? 0)) with true by lia. cbn [andb].
  destruct (page_count + 1 >=? m) eqn:Hlast.
  - unfold page_yielded, request_sent. cbn [fst snd default].
    eexists _, _. split; [reflexivity |]. cbn.
    replace (Z.to_nat (m - page_count)) with 1%nat by lia.
    repeat split. lia.
  - unfold page_yielded, request_sent.
    match goal with |- context [paginate_loop _ _ _ _ ?p ?n ?nc (?c1, ?w1)] =>
      destruct (IH p n nc c1 w1) as (c' & w' & Hrun & Hy & Hl & Hh) end.
    { exact Hauth. } { exact Hmax. } { lia. } { lia. }
    exists c', w'. rewrite Hrun. split; [reflexivity |].
    cbn in Hy, Hl, Hh. rewrite Hy, Hl, Hh. rewrite <- app_assoc.
    replace (Z.to_nat (m - page_count)) with (S (Z.to_nat (m - (page_count + 1))))
      by lia.
    split; [reflexivity | split; [reflexivity | lia]].
Qed.
End RepeatedCursor.

Lemma scripted_nil (last : Outcome) (n : nat) (rq : Request) : scripted [] last n rq = last.
Proof. unfold scripted. destruct n; reflexivity. Qed.




Lemma paginate_loop_continue (env : Env) (endpoint : string) (max_pages : option Z)
      (fuel : nat) (params : gmap string Py.JSON) (page_count : Z)
      (next_cursor : option Py.JSON) (s s1 : APIClient * World)
      (members : list (string * Py.JSON)) :
  get env endpoint (Some (with_cursor next_cursor params)) true s
  = (Ok (Py.JObj members), s1) ->
  exhausted members || capped max_pages (page_count + 1) = false ->
  paginate_loop env endpoint max_pages (S fuel) params page_count next_cursor s
  = paginate_loop env endpoint max_pages fuel (with_cursor next_cursor params)
                  (page_count + 1) (Py.dict_get "next_cursor" members)
                  (page_yielded (Py.JObj members) s1).
Proof.
  intros Hget Hstop. apply orb_false_iff in Hstop. destruct Hstop as [He Hc].
  rewrite paginate_loop_eq, Hget. cbv zeta. rewrite He, Hc. reflexivity.
Qed.

Lemma paginate_loop_exhausted (env : Env) (endpoint : string) (max_pages : option Z)
      (fuel : nat) (params : gmap string Py.JSON) (page_count : Z)
      (next_cursor : option Py.JSON) (s s1 : APIClient * World)
      (members : list (string * Py.JSON)) :
  get env endpoint (Some (with_cursor next_cursor params)) true s
  = (Ok (Py.JObj members), s1) ->
  exhausted members = true ->
  paginate_loop env endpoint max_pages (S fuel) params page_count next_cursor s
  = (Ok tt, page_yielded (Py.JObj members) s1).
Proof.
  intros Hget He. rewrite paginate_loop_eq, Hget. cbv zeta. rewrite He. reflexivity.
Qed.

(** C7 (amended): after a page is fetched and yielded, [paginate] stops
    exactly when the page has no truthy [next_cursor] and no truthy
    [has_more] (a missing [has_more] counts as false), or when [max_pages]
    is set to a non-zero value and that many pages were fetched; otherwise
    it goes on with one more page counted and the page's cursor. Over
    [{next_cursor: "abc"}, {has_more: false}] it yields exactly two pages,
    and with [max_pages = 1] over a stream that always names a cursor
    exactly one. *)
Theorem paginate_stop_condition
  (env : Env) (endpoint : string) (max_pages : option Z) (fuel : nat)
  (params : gmap string Py.JSON) (page_count : Z) (next_cursor : option Py.JSON)
  (s s1 : APIClient * World) (members : list (string * Py.JSON)) :
  get env endpoint (Some (with_cursor next_cursor params)) true s
  = (Ok (Py.JObj members), s1) ->
  let run := paginate_loop env endpoint max_pages (S fuel) params page_count next_cursor s in
  let stop := exhausted members || capped max_pages (page_count + 1) in
  (stop = true ->
   fst run = Ok tt
   /\ yielded (snd (snd run)) = (yielded (snd s1) ++ [Py.JObj members])%list
   /\ http_calls (snd (snd run)) = http_calls (snd s1))
  /\ (stop = false ->
      run = paginate_loop env endpoint max_pages fuel (with_cursor next_cursor params)
                          (page_count + 1) (Py.dict_get "next_cursor" members)
                          (page_yielded (Py.JObj members) s1))
  /\ (forall extra,
        let '(r, (_, w')) :=
          paginate (script_env [ok page_abc] (ok page_end)) "items" None 100 None
                   (2 + extra) (plain_client, world0) in
        r = Ok tt /\ yielded w' = [page_abc; page_end] /\ http_calls w' = 2%nat)
  /\ (forall extra,
        let '(r, (_, w')) :=
          paginate (script_env [] (ok page_abc)) "items" None 100 (Some 1)
                   (1 + extra) (plain_client, world0) in
        r = Ok tt /\ yielded w' = [page_abc] /\ http_calls w' = 1%nat
        /\ logged w' = [WarnMaxPages 1]).
Proof.
  intros Hget run stop. subst run stop.
  split; [| split; [| split]].
  - rewrite paginate_loop_eq, Hget. cbv zeta.
    destruct s1 as [c1 w1]. unfold page_yielded.
    intros Hstop. destruct (exhausted members); cbn [orb] in Hstop.
    + repeat split.
    + rewrite Hstop. repeat split.
  - apply paginate_loop_continue. exact Hget.
  - intros extra. unfold paginate. cbn [Nat.add].
    erewrite paginate_loop_continue;
      [| apply (get_ok_without_manager _ "items" _ plain_client world0
                  (json_response 200 page_abc) page_abc);
         [reflexivity | vm_compute; discriminate | reflexivity | reflexivity
          | reflexivity | reflexivity]
       | reflexivity].
    unfold page_yielded, request_sent.
    erewrite paginate_loop_exhausted;
      [| apply (get_ok_without_manager _ "items" _ _ _
                  (json_response 200 page_end) page_end);
         [reflexivity | vm_compute; discriminate | reflexivity | reflexivity
          | reflexivity | reflexivity]
       | reflexivity].
    vm_compute. repeat split.
  - intros extra. unfold paginate.
    destruct (paginate_loop_repeated_capped (script_env [] (ok page_abc)) "items"
                (json_response 200 page_abc)
                [("data", Py.JArr []); ("next_cursor", Py.JStr "abc")] (Py.JStr "abc")
                (scripted_nil (ok page_abc)) eq_refl eq_refl eq_refl eq_refl eq_refl
                1 (1 + extra)
                (<[ "limit" := Py.JNum 100 ]> (default ∅ None)) 0 None plain_client world0
                eq_refl ltac:(vm_compute; discriminate) ltac:(lia) ltac:(lia))
      as (c' & w' & Hrun & Hy & Hl & Hh).
    rewrite Hrun. split; [reflexivity |]. split; [exact Hy |]. split; [exact Hh | exact Hl].
Qed.

Lemma paginate_stop_condition_witness :
  (get (script_env [ok page_abc] (ok page_end)) "items"
       (Some (with_cursor None {[ "limit" := Py.JNum 100 ]})) true (plain_client, world0)
   = (Ok page_abc,
      request_sent
        (get_request plain_client "http://api.example/v1/items"
                     (Some {[ "limit" := Py.JNum 100 ]}) (built_headers None None))
        (plain_client, world0)))
  /\ (let '(r, (_, w')) :=
        paginate (script_env [ok page_abc] (ok page_end)) "items" None 100 None 2
                 (plain_client, world0) in
      r = Ok tt /\ yielded w' = [page_abc; page_end] /\ http_calls w' = 2%nat)
  /\ (let '(r, (_, w')) :=
        paginate (script_env [] (ok page_abc)) "items" None 100 (Some 1) 1
                 (plain_client, world0) in
      r = Ok tt /\ yielded w' = [page_abc] /\ http_calls w' = 1%nat
      /\ logged w' = [WarnMaxPages 1]).
Proof.
  assert (Hget : get (script_env [ok page_abc] (ok page_end)) "items"
                     (Some (with_cursor None {[ "limit" := Py.JNum 100 ]})) true
                     (plain_client, world0)
                 = (Ok page_abc,
                    request_sent
                      (get_request plain_client "http://api.example/v1/items"
                                   (Some {[ "limit" := Py.JNum 100 ]})
                                   (built_headers None None))
                      (plain_client, world0))).
  { apply (get_ok_without_manager _ "items" _ plain_client world0
             (json_response 200 page_abc) page_abc);
      [reflexivity | vm_compute; discriminate | reflexivity | reflexivity
       | reflexivity | reflexivity]. }
  split; [exact Hget |].
  destruct (paginate_stop_condition (script_env [ok page_abc] (ok page_end)) "items" None
              1 {[ "limit" := Py.JNum 100 ]} 0 None (plain_client, world0) _
              [("data", Py.JArr []); ("next_cursor", Py.JStr "abc")] Hget)
    as (_ & _ & Htwo & Hone).
  split; [exact (Htwo 0%nat) | exact (Hone 0%nat)].
Defined.

Lemma paginate_zero_max_pages_is_no_cap :
  (let '(r, (_, w')) :=
     paginate (script_env [ok page_abc] (ok page_end)) "items" None 100 (Some 0) 10
              (plain_client, world0) in
   r = Ok tt /\ yielded w' = [page_abc; page_end] /\ logged w' = [])
  /\ (let '(r, (_, w')) :=
        paginate (script_env [] (ok page_abc)) "items" None 100 (Some 0) 10
                 (plain_client, world0) in
      r = OutOfFuel /\ yielded w' = repeat page_abc 10).
Proof. vm_compute. repeat split. Qed.

(** *** Metrics over a run of calls *)

Lemma balanced_refl (c : APIClient) (w : World) : balanced c w c w.
Proof. unfold balanced. lia. Qed.

Lemma balanced_trans (c1 : APIClient) (w1 : World) (c2 : APIClient) (w2 : World)
      (c3 : APIClient) (w3 : World) :
  balanced c1 w1 c2 w2 -> balanced c2 w2 c3 w3 -> balanced c1 w1 c3 w3.
Proof. unfold balanced. lia. Qed.

Lemma run_call_spec (env : Env) (call : Call) (c : APIClient) (w : World) :
  let '(c', w') := snd (run_call env call (c, w)) in
  balanced c w c' w'
  /\ 0 <= errors_logged w' - errors_logged w
     <= Z.of_nat (http_calls w') - Z.of_nat (http_calls w).
Proof.
  destruct (run_call env call (c, w)) as [r [c' w']] eqn:Hrun. cbn [snd].
  destruct call as [endpoint params retry | endpoint json data]; cbn [run_call] in Hrun.
  - apply get_spec in Hrun. destruct Hrun as (Hb & _ & _ & _ & _ & _ & He). auto.
  - apply post_spec in Hrun. destruct Hrun as (Hb & _ & _ & _ & _ & _ & He). auto.
Qed.

Lemma run_calls_spec (env : Env) (calls : list Call) :
  forall (c : APIClient) (w : World),
    let '(c', w') := run_calls env calls (c, w) in
    balanced c w c' w'
    /\ 0 <= errors_logged w' - errors_logged w
       <= Z.of_nat (http_calls w') - Z.of_nat (http_calls w).
Proof.
  induction calls as [| call rest IH]; intros c w; cbn [run_calls].
  - split; [apply balanced_refl | lia].
  - pose proof (run_call_spec env call c w) as Hcall.
    destruct (snd (run_call env call (c, w))) as [c1 w1].
    specialize (IH c1 w1). destruct (run_calls env rest (c1, w1)) as [c' w'].
    destruct Hcall as [Hb1 He1]. destruct IH as [Hb2 He2].
    split; [eapply balanced_trans; eassumption | lia].
Qed.



(** ** Further properties of the client *)

(** *** The token manager *)

Lemma _needs_refresh_eq (env : Env) (tm : OAuth2TokenManager) (w : World) :
  _needs_refresh env (tm, w)
  = match token_expires_at tm with
    | Some expires_at =>
        if Py.opt_truthy (access_token tm)
        then (Ok (utcnow env (clock_reads w)
                  >=? expires_at - timedelta_seconds (refresh_buffer_seconds tm)),
              (tm, clock_read w))
        else (Ok true, (tm, w))
    | None => (Ok true, (tm, w))
    end.
Proof.
  unfold _needs_refresh, bind, gets, on_snd, datetime_utcnow, ret. cbn [fst].
  destruct (token_expires_at tm); [| reflexivity].
  destruct (Py.opt_truthy (access_token tm)); reflexivity.
Qed.

Lemma _fetch_new_token_eq (env : Env) (tm : OAuth2TokenManager) (w : World) :
  _fetch_new_token env (tm, w)
  = match token_post env (token_calls w) with
    | TokenJson (Some tok) expires_in =>
        (Ok tt, (with_token tok expires_in (utcnow env (clock_reads w)) tm,
                 clock_read (token_posted w)))
    | TokenJson None _ => (Raise KeyError, (tm, token_posted w))
    | TokenRequestFailed =>
        (Raise (RuntimeError TokenFetchFailed),
         (tm, set_logged (fun l => (l ++ [ErrTokenFetch])%list) (token_posted w)))
    end.
Proof.
  unfold _fetch_new_token, bind, on_snd, post_token, datetime_utcnow, log, modify, raise.
  destruct (token_post env (token_calls w)) as [[tok |] expires_in |]; reflexivity.
Qed.

Lemma get_access_token_cases (env : Env) (tm : OAuth2TokenManager) (w : World)
      (r : Result string) (tm' : OAuth2TokenManager) (w' : World) :
  get_access_token env (tm, w) = (r, (tm', w')) ->
  (token_calls w' <= S (token_calls w))%nat
  /\ match r with
     | Ok tok => access_token tm' = Some tok /\ Py.str_truthy tok = true
     | Raise e =>
         (e = RuntimeError TokenFetchFailed /\ tm' = tm)
         \/ (e = KeyError /\ tm' = tm)
         \/ (e = RuntimeError FailedToObtainToken
             /\ Py.opt_truthy (access_token tm') = false)
     | OutOfFuel => False
     end.
Proof.
  assert (Hfinish : forall (tm0 : OAuth2TokenManager) (w0 : World),
             (self <- gets fst ;;
              if Py.opt_truthy (access_token self)
              then ret (default "" (access_token self))
              else raise (RuntimeError FailedToObtainToken)) (tm0, w0) = (r, (tm', w')) ->
             tm' = tm0 /\ w' = w0
             /\ match r with
                | Ok tok => access_token tm0 = Some tok /\ Py.str_truthy tok = true
                | Raise e => e = RuntimeError FailedToObtainToken
                             /\ Py.opt_truthy (access_token tm0) = false
                | OutOfFuel => False
                end).
  { intros tm0 w0. unfold bind, gets, ret, raise. cbn [fst].
    destruct (access_token tm0) as [tok |] eqn:Htok; cbn [Py.opt_truthy].
    - destruct (Py.str_truthy tok) eqn:Ht; intros H; inv_pair H; auto.
    - intros H; inv_pair H; auto. }
  unfold get_access_token. unfold bind at 1. rewrite _needs_refresh_eq.
  assert (Hheld : forall w0, token_calls w0 = token_calls w ->
             ((if false then _fetch_new_token env else ret tt) ;;
              self <- gets fst ;;
              if Py.opt_truthy (access_token self)
              then ret (default "" (access_token self))
              else raise (RuntimeError FailedToObtainToken)) (tm, w0) = (r, (tm', w')) ->
             (token_calls w' <= S (token_calls w))%nat
             /\ match r with
                | Ok tok => access_token tm' = Some tok /\ Py.str_truthy tok = true
                | Raise e =>
                    (e = RuntimeError TokenFetchFailed /\ tm' = tm)
                    \/ (e = KeyError /\ tm' = tm)
                    \/ (e = RuntimeError FailedToObtainToken
                        /\ Py.opt_truthy (access_token tm') = false)
                | OutOfFuel => False
                end).
  { intros w0 Hw0. unfold bind at 1. unfold ret at 1. intros H.
    apply Hfinish in H. destruct H as (-> & -> & Hr).
    split; [lia |]. destruct r as [tok | e |]; intuition. }
  assert (Hfetch : forall w0, token_calls w0 = token_calls w ->
             ((if true then _fetch_new_token env else ret tt) ;;
              self <- gets fst ;;
              if Py.opt_truthy (access_token self)
              then ret (default "" (access_token self))
              else raise (RuntimeError FailedToObtainToken)) (tm, w0) = (r, (tm', w')) ->
             (token_calls w' <= S (token_calls w))%nat
             /\ match r with
                | Ok tok => access_token tm' = Some tok /\ Py.str_truthy tok = true
                | Raise e =>
                    (e = RuntimeError TokenFetchFailed /\ tm' = tm)
                    \/ (e = KeyError /\ tm' = tm)
                    \/ (e = RuntimeError FailedToObtainToken
                        /\ Py.opt_truthy (access_token tm') = false)
                | OutOfFuel => False
                end).
  { intros w0 Hw0. unfold bind at 1. rewrite _fetch_new_token_eq.
    destruct (token_post env (token_calls w0)) as [[tok |] expires_in |].
    - intros H. apply Hfinish in H. destruct H as (-> & -> & Hr).
      split; [cbn; lia |]. destruct r as [tok' | e |]; intuition.
    - intros H. inv_pair H. split; [cbn; lia | auto].
    - intros H. inv_pair H. split; [cbn; lia | auto]. }
  destruct (token_expires_at tm) as [expires_at |].
  - destruct (Py.opt_truthy (access_token tm)).
    + destruct (_ >=? _); [apply Hfetch | apply Hheld]; reflexivity.
    + apply Hfetch; reflexivity.
  - apply Hfetch; reflexivity.
Qed.




(** *** The headers of a request *)

Lemma _get_headers_ok (env : Env) (c : APIClient) (w : World)
      (h : gmap string string) (c' : APIClient) (w' : World) :
  _get_headers env (c, w) = (Ok h, (c', w')) ->
  h = built_headers (held_token c') (api_key_auth c)
  /\ (auth_manager c = None -> held_token c' = None)
  /\ (auth_manager c <> None ->
      exists tok, held_token c' = Some tok /\ Py.str_truthy tok = true).
Proof.
  unfold _get_headers, bind at 1, gets. cbn [fst].
  destruct (auth_manager c) as [tm |] eqn:Hauth.
  - unfold bind at 1, bind at 1, on_manager. rewrite Hauth.
    destruct (get_access_token env (tm, w)) as [r [tm' w0]] eqn:Hget.
    apply get_access_token_cases in Hget. destruct Hget as [_ Hr].
    destruct r as [tok | e |]; [| discriminate | discriminate].
    destruct Hr as [Htok Htruthy].
    unfold ret, built_headers. intros H.
    assert (Hc : c' = set_auth_manager (Some tm') c /\ h = built_headers (Some tok) (api_key_auth c)).
    { unfold built_headers. destruct (api_key_auth c); inv_pair H; auto. }
    destruct Hc as [-> ->]. unfold held_token. cbn. rewrite Htok.
    split; [reflexivity |]. split; [discriminate | eauto].
  - unfold bind, ret, built_headers. intros H.
    assert (Hc : c' = c /\ h = built_headers None (api_key_auth c)).
    { unfold built_headers. destruct (api_key_auth c); inv_pair H; auto. }
    destruct Hc as [-> ->]. unfold held_token. rewrite Hauth. cbn.
    split; [reflexivity |]. split; [reflexivity | congruence].
Qed.

Lemma built_headers_key (token : option string) (k : APIKeyAuth) :
  built_headers token (Some k) !! header_name k = Some (api_key k).
Proof.
  unfold built_headers, get_headers.
  apply lookup_union_Some_l. apply lookup_singleton_eq.
Qed.

Lemma built_headers_other (token : option string) (key : option APIKeyAuth)
      (name : string) :
  (forall k, key = Some k -> header_name k <> name) ->
  built_headers token key !! name
  = if decide (name = "Authorization")
    then String.append "Bearer " <$> token
    else if decide (name = "User-Agent") then Some "SmartSensorPipeline/1.0"
    else if decide (name = "Accept") then Some "application/json"
    else None.
Proof.
  intros Hkey. unfold built_headers.
  assert (Hbase : (match token with
                   | Some tok => <[ "Authorization" := String.append "Bearer " tok ]>
                                   ({[ "User-Agent" := "SmartSensorPipeline/1.0";
                                       "Accept" := "application/json" ]}
                                    : gmap string string)
                   | None => {[ "User-Agent" := "SmartSensorPipeline/1.0";
                                "Accept" := "application/json" ]}
                   end) !! name
                  = if decide (name = "Authorization")
                    then String.append "Bearer " <$> token
                    else if decide (name = "User-Agent")
                         then Some "SmartSensorPipeline/1.0"
                         else if decide (name = "Accept") then Some "application/json"
                              else None).
  { destruct (decide (name = "Authorization")) as [-> | Hna].
    - destruct token; [apply lookup_insert_eq | reflexivity].
    - assert (Hrest : ({[ "User-Agent" := "SmartSensorPipeline/1.0";
                          "Accept" := "application/json" ]} : gmap string string) !! name
                      = if decide (name = "User-Agent")
                        then Some "SmartSensorPipeline/1.0"
                        else if decide (name = "Accept") then Some "application/json"
                             else None).
      { destruct (decide (name = "User-Agent")) as [-> | Hnu]; [reflexivity |].
        rewrite lookup_insert_ne by congruence.
        destruct (decide (name = "Accept")) as [-> | Hnc]; [reflexivity |].
        rewrite lookup_singleton_ne by congruence. reflexivity. }
      destruct token; [rewrite lookup_insert_ne by congruence |]; exact Hrest. }
  destruct key as [k |]; [| exact Hbase].
  unfold get_headers. rewrite lookup_union_r; [exact Hbase |].
  apply lookup_singleton_ne. apply Hkey. reflexivity.
Qed.

(** X3: in the headers [_get_headers] returns, the API key is found under
    its header name, even when that name is one of the other three; apart
    from that name, [Authorization] is [Bearer] and the token the manager
    holds afterwards (a non-empty one; absent without a manager),
    [User-Agent] and [Accept] have their fixed values, and there is no other
    header. *)
Theorem _get_headers_contents
  (env : Env) (c : APIClient) (w : World)
  (h : gmap string string) (c' : APIClient) (w' : World) :
  _get_headers env (c, w) = (Ok h, (c', w')) ->
  (forall k, api_key_auth c = Some k -> h !! header_name k = Some (api_key k))
  /\ (forall name, (forall k, api_key_auth c = Some k -> header_name k <> name) ->
        h !! name
        = if decide (name = "Authorization")
          then String.append "Bearer " <$> held_token c'
          else if decide (name = "User-Agent") then Some "SmartSensorPipeline/1.0"
          else if decide (name = "Accept") then Some "application/json"
          else None)
  /\ (auth_manager c = None -> held_token c' = None)
  /\ (auth_manager c <> None ->
      exists tok, held_token c' = Some tok /\ Py.str_truthy tok = true).
Proof.
  intros H. apply _get_headers_ok in H. destruct H as (-> & Hnone & Hsome).
  split; [| split; [| split; assumption]].
  - intros k ->. apply built_headers_key.
  - intros name Hname. apply built_headers_other. exact Hname.
Qed.

Lemma _get_headers_contents_witness :
  let '(r, (c', w')) :=
    _get_headers (auth_env (ok Py.JNull) TokenRequestFailed) (key_client "Authorization", world0) in
  match r with
  | Ok h => h !! "Authorization" = Some "k-123"
            /\ h !! "Accept" = Some "application/json"
            /\ held_token c' = Some "tok-1"
  | _ => False
  end.
Proof.
  assert (Hrun : _get_headers (auth_env (ok Py.JNull) TokenRequestFailed)
                   (key_client "Authorization", world0)
                 = (Ok (built_headers (Some "tok-1")
                          (Some (mkAPIKeyAuth "k-123" "Authorization"))),
                    (key_client "Authorization", clock_read world0))).
  { apply (_get_headers_held (auth_env (ok Py.JNull) TokenRequestFailed) (key_client "Authorization")
             world0 manager_10_minutes_left "tok-1" (timedelta_seconds 600));
      [reflexivity | reflexivity | reflexivity | reflexivity | vm_compute; reflexivity]. }
  rewrite Hrun.
  destruct (_get_headers_contents _ _ _ _ _ _ Hrun) as (Hkey & Hother & _ & _).
  split; [exact (Hkey _ eq_refl) |]. split; [| reflexivity].
  rewrite (Hother "Accept"); [reflexivity |].
  intros k Hk. inversion Hk. discriminate.
Defined.

(** *** Headers that cannot be built *)



(** *** The attempts of [get] *)

Lemma get_budget (env : Env) (endpoint : string) (params : option (gmap string Py.JSON))
      (retry : bool) (c : APIClient) (w : World) (r : Result Py.JSON)
      (c' : APIClient) (w' : World) :
  get env endpoint params retry (c, w) = (r, (c', w')) ->
  let max_attempts := if retry then max_retries (rate_limit_handler c) else 1 in
  0 <= Z.of_nat (http_calls w') - Z.of_nat (http_calls w) <= Z.max 0 max_attempts
  /\ (max_attempts <= 0 -> exists e, r = Raise e).
Proof.
  intros Hget max_attempts. revert Hget.
  unfold get, bind at 1, gets. cbn [fst]. unfold bind at 1.
  destruct (_get_headers env (c, w)) as [r0 [c0 w0]] eqn:Hh.
  apply _get_headers_quiet in Hh.
  destruct Hh as ((Crq & Cer & Crl & _) & [(Hh & Hs & He & Hy) Hsl] & Hb).
  fold max_attempts.
  destruct r0 as [headers | e |].
  - intros Hloop.
    pose proof (get_loop_spec _ _ _ _ _ _ _ _ _ _ _ _ _ Hloop)
      as (_ & _ & _ & _ & _ & _ & Hn & _).
    split; [lia |].
    intros Hzero. rewrite get_loop_exhausted in Hloop by lia. inv_pair Hloop. eauto.
  - intros H. inv_pair H. split; [lia | eauto].
  - destruct Hb.
Qed.

(** X5: [get] always ends, and sends at most [max_retries] requests (one
    with [retry_on_rate_limit = False]), each counted in [request_count];
    with a budget of zero or less it sends nothing and raises. *)
Theorem get_request_budget
  (env : Env) (endpoint : string) (params : option (gmap string Py.JSON))
  (retry : bool) (c : APIClient) (w : World) :
  let max_attempts := if retry then max_retries (rate_limit_handler c) else 1 in
  let '(r, (c', w')) := get env endpoint params retry (c, w) in
  r <> OutOfFuel
  /\ 0 <= Z.of_nat (http_calls w') - Z.of_nat (http_calls w) <= Z.max 0 max_attempts
  /\ request_count c' - request_count c
     = Z.of_nat (http_calls w') - Z.of_nat (http_calls w)
  /\ (max_attempts <= 0 -> http_calls w' = http_calls w /\ exists e, r = Raise e).
Proof.
  intros max_attempts.
  destruct (get env endpoint params retry (c, w)) as [r [c' w']] eqn:Hget.
  pose proof (get_budget _ _ _ _ _ _ _ _ _ Hget) as [Hn Hzero].
  apply get_spec in Hget. destruct Hget as ([Hrq _] & _ & _ & Hfuel & _).
  fold max_attempts in Hn, Hzero.
  split; [exact Hfuel |]. split; [exact Hn |]. split; [exact Hrq |].
  intros Hle. split; [lia | auto].
Qed.



(** *** Persistent rate limiting *)

Lemma Qpower_2_nonneg (a : Z) : (0 <= Qpower 2 a)%Q.
Proof. apply Qpower_0_le. discriminate. Qed.

Lemma handle_rate_limit_backoff (self : RateLimitHandler) (response : Response)
      (attempt : Z) (w : World) :
  plain_429 response ->
  attempt < max_retries self ->
  (0 <= base_delay self)%Q ->
  handle_rate_limit self response attempt w
  = (Ok tt,
     set_slept (fun l => (l ++ [(Qpower 2 attempt * base_delay self)%Q])%list)
       (set_logged
          (fun l => (l ++ [WarnRateLimitHit attempt
                             (Qpower 2 attempt * base_delay self)%Q])%list) w)).
Proof.
  intros [Hs Hra] Hlt Hb. unfold handle_rate_limit.
  rewrite Hs. cbn [Z.eqb Pos.eqb negb].
  replace (attempt >=? max_retries self) with false by lia.
  rewrite Hra. unfold bind, ret, log, modify, time_sleep.
  assert (Hle : Qle_bool 0 (Qpower 2 attempt * base_delay self) = true).
  { apply Qle_bool_iff. apply Qmult_le_0_compat; [apply Qpower_2_nonneg | exact Hb]. }
  rewrite Hle. reflexivity.
Qed.

Section Persistent429.
Variables (env : Env) (url : string) (params : option (gmap string Py.JSON))
          (max_attempts : Z).
Hypothesis always_429 :
  forall n rq, exists response, session_get env n rq = Responded response
                                /\ plain_429 response.

Lemma get_loop_persistent_429 (fuel : nat) :
  forall (attempt : Z) (headers : gmap string string) (c : APIClient) (w : World),
    max_attempts <= max_retries (rate_limit_handler c) ->
    (0 <= base_delay (rate_limit_handler c))%Q ->
    max_attempts - attempt <= Z.of_nat fuel ->
    exists c' w',
      get_loop env url params true max_attempts fuel attempt headers (c, w)
      = (Raise (RuntimeError (FailedAfterAttempts max_attempts)), (c', w'))
      /\ slept w'
         = (slept w ++ backoff_waits (base_delay (rate_limit_handler c)) attempt
                                     (Z.to_nat (max_attempts - attempt)))%list
      /\ http_calls w' = (http_calls w + Z.to_nat (max_attempts - attempt))%nat
      /\ request_count c' = request_count c + Z.max 0 (max_attempts - attempt)
      /\ error_count c' = error_count c
      /\ errors_logged w' = errors_logged w.
Proof using always_429.
  induction fuel as [| fuel IH]; intros attempt headers c w Hmax Hbase Hfuel.
  - rewrite get_loop_exhausted by lia. exists c, w.
    replace (Z.to_nat (max_attempts - attempt)) with 0%nat by lia.
    cbn. rewrite app_nil_r. repeat split; lia.
  - destruct (Z.lt_ge_cases attempt max_attempts) as [Hlt | Hge].
    2: { rewrite get_loop_exhausted by lia. exists c, w.
         replace (Z.to_nat (max_attempts - attempt)) with 0%nat by lia.
         cbn. rewrite app_nil_r. repeat split; lia. }
    rewrite get_loop_eq by exact Hlt. rewrite get_try_eq. cbv zeta.
    destruct (always_429 (http_calls w) (get_request c url params headers))
      as (response & -> & Hplain).
    pose proof Hplain as [Hs _]. rewrite Hs. cbn [Z.eqb Pos.eqb andb].
    unfold request_sent. unfold bind at 1. unfold on_snd at 1.
    cbn [rate_limit_handler set_request_count].
    rewrite (handle_rate_limit_backoff _ _ _ _ Hplain) by (try lia; exact Hbase).
    unfold ret.
    match goal with |- context [get_loop _ _ _ _ _ _ ?a ?h (?c1, ?w1)] =>
      destruct (IH a h c1 w1) as (c' & w' & Hrun & Hsl & Hh & Hrq & Her & Hel) end.
    { exact Hmax. } { exact Hbase. } { lia. }
    exists c', w'. rewrite Hrun. split; [reflexivity |].
    cbn in Hsl, Hh, Hrq, Her, Hel. rewrite Hsl, Hh, Hrq, Her, Hel.
    replace (Z.to_nat (max_attempts - attempt))
      with (S (Z.to_nat (max_attempts - (attempt + 1)))) by lia.
    cbn [backoff_waits]. rewrite <- app_assoc.
    unfold errors_logged. cbn. rewrite count_request_errors_app. cbn.
    repeat split; lia.
Qed.
End Persistent429.

Lemma Qpower_2_succ (a : Z) : 0 <= a -> (Qpower 2 (a + 1) == 2 * Qpower 2 a)%Q.
Proof.
  intros Ha. rewrite Qpower_plus by discriminate. cbn. ring.
Qed.

Lemma total_backoff (base_delay : Q) (n : nat) :
  forall attempt, 0 <= attempt ->
    (total_wait (backoff_waits base_delay attempt n)
     == Qpower 2 attempt * (Qpower 2 (Z.of_nat n) - 1) * base_delay)%Q.
Proof.
  induction n as [| n IH]; intros attempt Ha.
  - unfold total_wait. cbn [backoff_waits fold_right].
    change (Qpower 2 (Z.of_nat 0)) with 1%Q. ring.
  - unfold total_wait. cbn [backoff_waits fold_right].
    fold (total_wait (backoff_waits base_delay (attempt + 1) n)).
    rewrite IH by lia. rewrite Qpower_2_succ by lia.
    replace (Z.of_nat (S n)) with (Z.of_nat n + 1) by lia.
    rewrite (Qpower_2_succ (Z.of_nat n)) by lia. ring.
Qed.



(** *** Persistent timeouts *)

Section PersistentTimeouts.
Variables (env : Env) (url : string) (params : option (gmap string Py.JSON))
          (retry : bool) (max_attempts : Z).
Hypothesis always_timeout : forall n rq, session_get env n rq = TimedOut.

Lemma get_loop_persistent_timeouts (fuel : nat) :
  forall (attempt : Z) (headers : gmap string string) (c : APIClient) (w : World),
    attempt < max_attempts ->
    max_attempts - attempt <= Z.of_nat fuel ->
    exists c' w',
      get_loop env url params retry max_attempts fuel attempt headers (c, w)
      = (Raise Timeout, (c', w'))
      /\ slept w' = slept w
      /\ http_calls w' = (http_calls w + Z.to_nat (max_attempts - attempt))%nat
      /\ request_count c' = request_count c + (max_attempts - attempt)
      /\ error_count c' = error_count c + (max_attempts - attempt)
      /\ logged w'
         = (logged w ++ repeat ErrTimeout (Z.to_nat (max_attempts - attempt)))%list.
Proof using always_timeout.
  induction fuel as [| fuel IH]; intros attempt headers c w Hlt Hfuel; [lia |].
  rewrite get_loop_eq by exact Hlt. rewrite get_try_eq. cbv zeta.
  rewrite always_timeout.
  destruct (attempt >=? max_attempts - 1) eqn:Hlast.
  - eexists _, _. split; [reflexivity |]. cbn.
    replace (Z.to_nat (max_attempts - attempt)) with 1%nat by lia.
    repeat split; lia.
  - unfold request_sent, error_counted.
    match goal with |- context [get_loop _ _ _ _ _ _ ?a ?h (?c1, ?w1)] =>
      destruct (IH a h c1 w1) as (c' & w' & Hrun & Hsl & Hh & Hrq & Her & Hlog) end.
    { lia. } { lia. }
    exists c', w'. rewrite Hrun. split; [reflexivity |].
    cbn in Hsl, Hh, Hrq, Her, Hlog. rewrite Hsl, Hh, Hrq, Her, Hlog.
    replace (Z.to_nat (max_attempts - attempt))
      with (S (Z.to_nat (max_attempts - (attempt + 1)))) by lia.
    cbn [repeat]. rewrite <- app_assoc.
    repeat split; lia.
Qed.
End PersistentTimeouts.

(** X8: when every request times out, [get] tries [max_retries] times
    (once without retry) with no sleep in between, counts and logs each
    timeout, and raises the last one. *)
Theorem get_persistent_timeouts
  (env : Env) (endpoint : string) (params : option (gmap string Py.JSON))
  (retry : bool) (c : APIClient) (w : World) (headers : gmap string string)
  (c1 : APIClient) (w1 : World) :
  _get_headers env (c, w) = (Ok headers, (c1, w1)) ->
  (forall n rq, session_get env n rq = TimedOut) ->
  let n := if retry then max_retries (rate_limit_handler c) else 1 in
  1 <= n ->
  exists c' w',
    get env endpoint params retry (c, w) = (Raise Timeout, (c', w'))
    /\ slept w' = slept w
    /\ http_calls w' = (http_calls w + Z.to_nat n)%nat
    /\ request_count c' = request_count c + n
    /\ error_count c' = error_count c + n
    /\ logged w' = (logged w1 ++ repeat ErrTimeout (Z.to_nat n))%list.
Proof.
  intros Hh Halways n Hn.
  rewrite (get_eq _ _ _ _ _ _ _ _ Hh). cbv zeta. fold n.
  apply _get_headers_quiet in Hh.
  destruct Hh as ((Crq & Cer & Crl & _) & [(Hht & Hs & He & Hy) Hsl] & _).
  destruct (get_loop_persistent_timeouts env (url_of c endpoint) params retry n Halways
              (Z.to_nat n) 0 headers c1 w1)
    as (c' & w' & Hrun & Hsl' & Hh' & Hrq' & Her' & Hlog); [lia | lia |].
  exists c', w'. split; [exact Hrun |].
  rewrite Z.sub_0_r in *.
  repeat split; try lia; congruence.
Qed.

Lemma get_persistent_timeouts_witness :
  exists c' w',
    get (script_env [] TimedOut) "items" None true (plain_client, world0)
    = (Raise Timeout, (c', w'))
    /\ slept w' = []
    /\ http_calls w' = 3%nat
    /\ request_count c' = 3
    /\ error_count c' = 3.
Proof.
  destruct (get_persistent_timeouts (script_env [] TimedOut) "items" None true
              plain_client world0 (built_headers None None) plain_client world0)
    as (c' & w' & Hrun & Hsl & Hh & Hrq & Her & _).
  - reflexivity.
  - intros n rq. apply scripted_nil.
  - vm_compute. discriminate.
  - exists c', w'. split; [exact Hrun |].
    split; [exact Hsl |]. split; [exact Hh |]. split; [exact Hrq | exact Her].
Defined.

(** *** Headers that do not convert *)



(** X10: when both rate-limit headers are there and one is no integer,
    the answer is lost: [get] raises [ValueError] after the request, before
    the status is looked at or the body decoded, and counts no error. *)
Theorem get_rate_limit_headers_invalid
  (env : Env) (endpoint : string) (params : option (gmap string Py.JSON))
  (retry : bool) (c : APIClient) (w : World) (headers : gmap string string)
  (c1 : APIClient) (w1 : World) (response : Response) :
  _get_headers env (c, w) = (Ok headers, (c1, w1)) ->
  1 <= (if retry then max_retries (rate_limit_handler c) else 1) ->
  let rq := get_request c1 (url_of c endpoint) params headers in
  session_get env (http_calls w1) rq = Responded response ->
  rate_limit_headers_ok response = false ->
  (status_code response = 429 -> retry = false) ->
  (status_code response = 401 -> auth_manager c1 = None) ->
  get env endpoint params retry (c, w) = (Raise ValueError, request_sent rq (c1, w1)).
Proof.
  intros Hh Hmax rq Hresp Hbad H429 H401.
  rewrite (get_eq _ _ _ _ _ _ _ _ Hh). cbv zeta.
  destruct (Z.to_nat _) as [| fuel] eqn:Hfuel; [lia |].
  rewrite get_loop_eq by lia. rewrite get_try_eq. cbv zeta. fold rq. rewrite Hresp.
  assert (Hb1 : (status_code response =? 429) && retry = false).
  { destruct (status_code response =? 429) eqn:E; [| reflexivity].
    apply Z.eqb_eq in E. rewrite (H429 E). reflexivity. }
  assert (Hb2 : (status_code response =? 401) && bool_decide (is_Some (auth_manager c1))
                = false).
  { destruct (status_code response =? 401) eqn:E; [| reflexivity].
    apply Z.eqb_eq in E. rewrite (H401 E). reflexivity. }
  rewrite Hb1, Hb2, Hbad. reflexivity.
Qed.

Lemma get_rate_limit_headers_invalid_witness :
  let '(r, (c', w')) :=
    get (script_env [Responded (ok_with_rate_limit "unlimited" "100" (Py.JNum 7))]
                    (ok Py.JNull))
        "items" None true (plain_client, world0) in
  r = Raise ValueError /\ http_calls w' = 1%nat /\ error_count c' = 0.
Proof.
  rewrite (get_rate_limit_headers_invalid
             (script_env [Responded (ok_with_rate_limit "unlimited" "100" (Py.JNum 7))]
                         (ok Py.JNull))
             "items" None true plain_client world0 (built_headers None None)
             plain_client world0 (ok_with_rate_limit "unlimited" "100" (Py.JNum 7)));
    [ repeat split | reflexivity | vm_compute; discriminate | reflexivity
    | vm_compute; reflexivity | intros H; discriminate H | intros _; reflexivity ].
Defined.

(** *** A 401 whose token exchange fails *)

(** X11: on a 401 with a token manager, when the token exchange fails or
    its answer has no [access_token], [get] raises the manager's exception
    ([RuntimeError], [KeyError]) instead of trying again: one request, one
    exchange, no sleep, the manager as it was and no error counted. *)
Theorem get_401_token_exchange_fails
  (env : Env) (endpoint : string) (params : option (gmap string Py.JSON))
  (retry : bool) (c : APIClient) (w : World) (headers : gmap string string)
  (c1 : APIClient) (w1 : World) (response : Response) (tm : OAuth2TokenManager) :
  _get_headers env (c, w) = (Ok headers, (c1, w1)) ->
  1 <= (if retry then max_retries (rate_limit_handler c) else 1) ->
  session_get env (http_calls w1) (get_request c1 (url_of c endpoint) params headers)
  = Responded response ->
  status_code response = 401 ->
  auth_manager c1 = Some tm ->
  let '(r, (c', w')) := get env endpoint params retry (c, w) in
  match token_post env (token_calls w1) with
  | TokenRequestFailed =>
      r = Raise (RuntimeError TokenFetchFailed)
      /\ logged w' = (logged w1 ++ [WarnGot401; ErrTokenFetch])%list
  | TokenJson None _ =>
      r = Raise KeyError /\ logged w' = (logged w1 ++ [WarnGot401])%list
  | TokenJson (Some _) _ => True
  end
  /\ ((forall tok expires_in,
          token_post env (token_calls w1) <> TokenJson (Some tok) expires_in) ->
      http_calls w' = S (http_calls w1)
      /\ token_calls w' = S (token_calls w1)
      /\ slept w' = slept w1
      /\ auth_manager c' = Some tm
      /\ request_count c' = request_count c1 + 1
      /\ error_count c' = error_count c1).
Proof.
  intros Hh Hmax Hresp Hs Hauth.
  rewrite (get_eq _ _ _ _ _ _ _ _ Hh). cbv zeta.
  destruct (Z.to_nat _) as [| fuel] eqn:Hfuel; [lia |].
  rewrite get_loop_eq by lia. rewrite get_try_eq. cbv zeta. rewrite Hresp, Hs, Hauth.
  cbn [Z.eqb Pos.eqb andb].
  replace (bool_decide (is_Some (Some tm))) with true
    by (symmetry; apply bool_decide_eq_true; eauto).
  unfold request_sent. unfold bind at 1. unfold on_snd at 1. unfold log, modify.
  unfold bind at 1. unfold on_manager at 1. cbn [auth_manager set_request_count].
  rewrite Hauth.
  unfold _fetch_new_token. unfold bind at 1. unfold on_snd at 1. unfold post_token.
  cbn [token_calls set_logged].
  destruct (token_post env (token_calls w1)) as [[tok |] expires_in |].
  - match goal with |- match ?t with pair _ _ => _ end => destruct t as [r [c' w']] end.
    split; [exact I |]. intros Hne. destruct (Hne tok expires_in eq_refl).
  - cbn. split; [split; reflexivity |]. intros _. repeat split.
  - cbn. split; [split; [reflexivity |] |].
    + rewrite <- app_assoc. reflexivity.
    + intros _. repeat split.
Qed.

Lemma get_401_token_exchange_fails_witness :
  let '(r, (c', w')) :=
    get (auth_env unauthorized TokenRequestFailed) "items" None true (auth_client, world0) in
  r = Raise (RuntimeError TokenFetchFailed)
  /\ http_calls w' = 1%nat /\ token_calls w' = 1%nat /\ error_count c' = 0.
Proof.
  pose proof (get_401_token_exchange_fails (auth_env unauthorized TokenRequestFailed)
                "items" None true auth_client world0 (built_headers (Some "tok-1") None)
                auth_client (clock_read world0) (mkResponse 401 ∅ None)
                manager_10_minutes_left) as H.
  generalize (get (auth_env unauthorized TokenRequestFailed) "items" None true
                  (auth_client, world0)), H.
  intros [r [c' w']] H'.
  destruct H' as [[Hr _] Hframe].
  - vm_compute. reflexivity.
  - vm_compute. discriminate.
  - reflexivity.
  - reflexivity.
  - reflexivity.
  - destruct Hframe as (Hh & Ht & _ & _ & _ & He); [intros tok e; discriminate |].
    repeat split; assumption.
Defined.

(** *** The requests of [get] *)

Lemma sent_between_refl (w : World) : sent_between w w [].
Proof. unfold sent_between. rewrite app_nil_r. cbn. repeat split; lia. Qed.

Lemma sent_between_trans (w1 w2 w3 : World) (l1 l2 : list Request) :
  sent_between w1 w2 l1 -> sent_between w2 w3 l2 -> sent_between w1 w3 (l1 ++ l2).
Proof.
  unfold sent_between. intros (S1 & L1 & H1) (S2 & L2 & H2).
  rewrite S2, S1, <- app_assoc, length_app. repeat split; lia.
Qed.

Lemma quiet_sent_between (w w' : World) : quiet_world w w' -> sent_between w w' [].
Proof.
  intros [(Hh & Hs & _) _]. unfold sent_between. rewrite Hs, Hh, app_nil_r. cbn.
  repeat split; lia.
Qed.

Lemma _fetch_new_token_benign (env : Env) (tm : OAuth2TokenManager) (w0 : World)
      (r0 : Result unit) (tm' : OAuth2TokenManager) (w0' : World) :
  _fetch_new_token env (tm, w0) = (r0, (tm', w0')) -> quiet_world w0 w0' /\ benign r0.
Proof. intros H. apply _fetch_new_token_quiet in H. tauto. Qed.

Lemma get_try_sent (env : Env) (url : string) (params : option (gmap string Py.JSON))
      (retry : bool) (attempt : Z) (headers : gmap string string)
      (c : APIClient) (w : World) (r : Result Flow) (c' : APIClient) (w' : World) :
  get_try env url params retry attempt headers (c, w) = (r, (c', w')) ->
  sent_between w w' [get_request c url params headers]
  /\ timeout c' = timeout c /\ base_url c' = base_url c.
Proof.
  rewrite get_try_eq. cbv zeta.
  set (rq := get_request c url params headers).
  unfold request_sent.
  set (c1 := set_request_count (request_count c + 1) c).
  set (w1 := mkWorld (S (http_calls w)) (token_calls w) (clock_reads w) (slept w)
                     (sent w ++ [rq])%list (logged w) (yielded w)).
  assert (Hbase : sent_between w w1 [rq] /\ timeout c1 = timeout c
                  /\ base_url c1 = base_url c).
  { unfold sent_between. cbn. repeat split; lia. }
  assert (Hquiet : forall c2 w2, same_client c1 c2 -> quiet_world w1 w2 ->
             sent_between w w2 [rq] /\ timeout c2 = timeout c /\ base_url c2 = base_url c).
  { intros c2 w2 (_ & _ & _ & Ht & Hb & _) Hq.
    destruct Hbase as (Hs & Ht1 & Hb1).
    split; [| split; congruence].
    apply (sent_between_trans _ _ _ [rq] [] Hs (quiet_sent_between _ _ Hq)). }
  clearbody c1 w1.
  destruct (session_get env (http_calls w) rq) as [response | |].
  2, 3: intros H; inv_pair H; exact Hbase.
  destruct ((status_code response =? 429) && retry).
  { unfold bind at 1. unfold on_snd at 1.
    destruct (handle_rate_limit (rate_limit_handler c) response attempt w1)
      as [r0 w0] eqn:Hh.
    apply handle_rate_limit_spec in Hh. destruct Hh as [(Hh & Hs & _) _].
    assert (Hw0 : sent_between w w0 [rq] /\ timeout c1 = timeout c
                  /\ base_url c1 = base_url c).
    { destruct Hbase as ((S1 & L1 & H1) & Ht & Hb).
      unfold sent_between. rewrite Hs, Hh. repeat split; assumption. }
    destruct r0; intros H; inv_pair H; exact Hw0. }
  destruct ((status_code response =? 401) && _).
  { unfold bind at 1. unfold on_snd at 1, log, modify.
    unfold bind at 1.
    destruct (on_manager (_fetch_new_token env) _) as [r0 [c2 w2]] eqn:Hm.
    apply (on_manager_quiet _ _ _ _ _ _ (_fetch_new_token_benign env)) in Hm.
    destruct Hm as (Hc2 & Hq2 & _).
    assert (Hq12 : quiet_world w1 w2).
    { refine (quiet_world_trans _ _ _ _ Hq2). quiet_tac. }
    destruct r0 as [[] | e |].
    - unfold bind at 1.
      destruct (_get_headers env (c2, w2)) as [r3 [c3 w3]] eqn:Hg.
      apply _get_headers_quiet in Hg. destruct Hg as (Hc3 & Hq3 & _).
      pose proof (Hquiet c3 w3 (same_client_trans _ _ _ Hc2 Hc3)
                    (quiet_world_trans _ _ _ Hq12 Hq3)) as Hfin.
      destruct r3; intros H; inv_pair H; exact Hfin.
    - intros H. inv_pair H. exact (Hquiet _ _ Hc2 Hq12).
    - intros H. inv_pair H. exact (Hquiet _ _ Hc2 Hq12). }
  destruct (negb (rate_limit_headers_ok response)).
  { intros H; inv_pair H; exact Hbase. }
  destruct (is_error_status (status_code response)).
  { intros H; inv_pair H; exact Hbase. }
  destruct (body response); intros H; inv_pair H; exact Hbase.
Qed.

Lemma get_loop_sent (env : Env) (url : string) (params : option (gmap string Py.JSON))
      (retry : bool) (max_attempts : Z) (fuel : nat) :
  forall (attempt : Z) (headers : gmap string string)
         (c : APIClient) (w : World) (r : Result Py.JSON) (c' : APIClient) (w' : World),
    get_loop env url params retry max_attempts fuel attempt headers (c, w) = (r, (c', w')) ->
    exists requests,
      sent_between w w' requests
      /\ Forall (fun rq => req_url rq = url /\ req_params rq = params
                           /\ req_timeout rq = timeout c
                           /\ req_json rq = None /\ req_data rq = None) requests
      /\ timeout c' = timeout c /\ base_url c' = base_url c.
Proof.
  induction fuel as [| fuel IH]; intros attempt headers c w r c' w'.
  { cbn [get_loop]. destruct (attempt <? max_attempts); intros H; inv_pair H;
      exists []; (split; [apply sent_between_refl | split; [constructor | split; reflexivity]]). }
  destruct (Z.lt_ge_cases attempt max_attempts) as [Hlt | Hge].
  2: { rewrite get_loop_exhausted by lia. intros H. inv_pair H.
       exists []. split; [apply sent_between_refl | split; [constructor | split; reflexivity]]. }
  rewrite get_loop_eq by exact Hlt.
  destruct (get_try env url params retry attempt headers (c, w)) as [r0 [c1 w1]] eqn:Ht.
  apply get_try_sent in Ht. destruct Ht as (Hs & Htm & Hb).
  assert (Hone : Forall (fun rq => req_url rq = url /\ req_params rq = params
                                   /\ req_timeout rq = timeout c
                                   /\ req_json rq = None /\ req_data rq = None)
                        [get_request c url params headers]).
  { repeat constructor. }
  assert (Hstop : forall (c2 : APIClient) (w2 : World),
             timeout c2 = timeout c1 -> base_url c2 = base_url c1 ->
             sent w2 = sent w1 -> http_calls w2 = http_calls w1 ->
             exists requests,
               sent_between w w2 requests
               /\ Forall (fun rq => req_url rq = url /\ req_params rq = params
                                    /\ req_timeout rq = timeout c
                                    /\ req_json rq = None /\ req_data rq = None) requests
               /\ timeout c2 = timeout c /\ base_url c2 = base_url c).
  { intros c2 w2 Ht2 Hb2 Hs2 Hh2. exists [get_request c url params headers].
    split; [| split; [exact Hone | split; congruence]].
    destruct Hs as (S1 & L1 & H1). unfold sent_between. rewrite Hs2, Hh2.
    repeat split; assumption. }
  assert (Hgo : forall (a : Z) (h : gmap string string) (c2 : APIClient) (w2 : World),
             timeout c2 = timeout c1 -> base_url c2 = base_url c1 ->
             sent w2 = sent w1 -> http_calls w2 = http_calls w1 ->
             get_loop env url params retry max_attempts fuel a h (c2, w2) = (r, (c', w')) ->
             exists requests,
               sent_between w w' requests
               /\ Forall (fun rq => req_url rq = url /\ req_params rq = params
                                    /\ req_timeout rq = timeout c
                                    /\ req_json rq = None /\ req_data rq = None) requests
               /\ timeout c' = timeout c /\ base_url c' = base_url c).
  { intros a h c2 w2 Ht2 Hb2 Hs2 Hh2 Hrun. apply IH in Hrun.
    destruct Hrun as (l & Hl & Hall & Ht' & Hb').
    exists ([get_request c url params headers] ++ l)%list.
    split; [| split; [| split; congruence]].
    - refine (sent_between_trans _ w2 _ _ _ _ Hl).
      destruct Hs as (S1 & L1 & H1). unfold sent_between. rewrite Hs2, Hh2.
      repeat split; assumption.
    - apply Forall_app. split; [exact Hone |].
      rewrite Ht2, Htm in Hall. exact Hall. }
  destruct r0 as [[data | a h] | e |].
  - intros H. inv_pair H. apply Hstop; reflexivity.
  - apply Hgo; reflexivity.
  - destruct e; try (intros H; inv_pair H; apply Hstop; reflexivity).
    destruct (attempt >=? max_attempts - 1).
    + intros H; inv_pair H; apply Hstop; reflexivity.
    + apply Hgo; reflexivity.
  - intros H. inv_pair H. apply Hstop; reflexivity.
Qed.

Lemma get_sent (env : Env) (endpoint : string) (params : option (gmap string Py.JSON))
      (retry : bool) (c : APIClient) (w : World) (r : Result Py.JSON)
      (c' : APIClient) (w' : World) :
  get env endpoint params retry (c, w) = (r, (c', w')) ->
  exists requests,
    sent_between w w' requests
    /\ Forall (request_of_get c endpoint params) requests
    /\ timeout c' = timeout c /\ base_url c' = base_url c.
Proof.
  unfold get, bind at 1, gets. cbn [fst]. unfold bind at 1.
  destruct (_get_headers env (c, w)) as [r0 [c0 w0]] eqn:Hh.
  apply _get_headers_quiet in Hh.
  destruct Hh as ((_ & _ & _ & Ht & Hb & _) & Hq & _).
  destruct r0 as [headers | e |].
  - intros H. apply get_loop_sent in H. destruct H as (l & Hl & Hall & Ht' & Hb').
    exists l. split; [| split; [| split; congruence]].
    + apply (sent_between_trans _ _ _ [] l (quiet_sent_between _ _ Hq) Hl).
    + rewrite Ht in Hall. exact Hall.
  - intros H. inv_pair H. exists [].
    split; [exact (quiet_sent_between _ _ Hq) | split; [constructor | split; assumption]].
  - intros H. inv_pair H. exists [].
    split; [exact (quiet_sent_between _ _ Hq) | split; [constructor | split; assumption]].
Qed.

(** X12: every request of one call of [get], whatever is retried, goes to
    the same URL with the caller's parameters and the client's timeout, and
    has no body; [sent] grows by exactly the requests made. *)
Theorem get_requests_uniform
  (env : Env) (endpoint : string) (params : option (gmap string Py.JSON))
  (retry : bool) (c : APIClient) (w : World) :
  let '(r, (c', w')) := get env endpoint params retry (c, w) in
  exists requests,
    sent_between w w' requests
    /\ Forall (request_of_get c endpoint params) requests.
Proof.
  destruct (get env endpoint params retry (c, w)) as [r [c' w']] eqn:H.
  apply get_sent in H. destruct H as (l & Hl & Hall & _). eauto.
Qed.

(** *** A single [post] *)

(** X13: once the headers are built, [post] sends one request and never a
    second: a timeout, a transport failure, an error status (401 and 429
    included) or a body that does not decode is counted, logged and raised,
    without sleeping and without a token exchange; otherwise the decoded
    body is returned. *)
Theorem post_single_attempt
  (env : Env) (endpoint : string) (json data : option Py.JSON)
  (c : APIClient) (w : World)
  (headers : gmap string string) (c1 : APIClient) (w1 : World) :
  _get_headers env (c, w) = (Ok headers, (c1, w1)) ->
  let rq := mkRequest (url_of c endpoint) None json data headers (timeout c) in
  let s1 := request_sent rq (c1, w1) in
  let failed := error_counted ErrPostFailed s1 in
  post env endpoint json data (c, w)
  = match session_post env (http_calls w1) rq with
    | TimedOut => (Raise Timeout, failed)
    | Failed => (Raise RequestException, failed)
    | Responded response =>
        if is_error_status (status_code response)
        then (Raise (HTTPError (status_code response)), failed)
        else match body response with
             | Some result => (Ok result, s1)
             | None => (Raise RequestException, failed)
             end
    end
  /\ slept (snd failed) = slept w1 /\ token_calls (snd failed) = token_calls w1
  /\ http_calls (snd failed) = S (http_calls w1).
Proof.
  intros Hh rq s1 failed. split; [| repeat split].
  unfold post, bind at 1, gets. cbn [fst]. unfold bind at 1. rewrite Hh.
  unfold try_except, bind at 1, incr_request_count, modify.
  unfold bind at 1, on_snd, call_session. fold rq.
  subst failed s1. unfold request_sent, error_counted.
  destruct (session_post env (http_calls w1) rq) as [response | |]; try reflexivity.
  unfold bind, raise_for_status, response_json, is_error_status, raise, ret,
    incr_error_count, modify, on_snd, log.
  destruct ((400 <=? status_code response) && (status_code response <? 600));
    [reflexivity |].
  destruct (body response); reflexivity.
Qed.

Lemma post_single_attempt_witness :
  let '(r, (c', w')) :=
    post (script_env [unauthorized] (ok Py.JNull)) "jobs" (Some Py.JNull) None
         (auth_client, world0) in
  r = Raise (HTTPError 401) /\ http_calls w' = 1%nat /\ token_calls w' = 0%nat
  /\ error_count c' = 1.
Proof.
  destruct (post_single_attempt (script_env [unauthorized] (ok Py.JNull)) "jobs"
              (Some Py.JNull) None auth_client world0
              (built_headers (Some "tok-1") None) auth_client (clock_read world0))
    as [Hpost _]; [vm_compute; reflexivity |].
  rewrite Hpost. vm_compute. repeat split.
Defined.

(** *** The rate-limit handler on its own *)

(** X14: [handle_rate_limit] does nothing to a response that is no 429;
    on a 429 with [attempt >= max_retries] it raises "Rate limit exceeded"
    without sleeping or logging; when it returns on a 429 it has logged one
    warning and slept once, a non-negative time; when it raises, nothing was
    slept. *)
Theorem handle_rate_limit_outcomes
  (self : RateLimitHandler) (response : Response) (attempt : Z) (w : World) :
  let '(r, w') := handle_rate_limit self response attempt w in
  (status_code response <> 429 -> r = Ok tt /\ w' = w)
  /\ (status_code response = 429 -> max_retries self <= attempt ->
      r = Raise (RuntimeError (RateLimitExceededAfter attempt)) /\ w' = w)
  /\ (status_code response = 429 -> r = Ok tt ->
      attempt < max_retries self
      /\ exists wait_time,
          (0 <= wait_time)%Q
          /\ slept w' = (slept w ++ [wait_time])%list
          /\ logged w' = (logged w ++ [WarnRateLimitHit attempt wait_time])%list)
  /\ (r <> Ok tt -> slept w' = slept w).
Proof.
  unfold handle_rate_limit.
  destruct (status_code response =? 429) eqn:Hs; cbn [negb].
  2: { unfold ret. repeat split; intros; try lia; congruence. }
  destruct (attempt >=? max_retries self) eqn:Hge.
  { unfold raise. repeat split; intros; try lia; try congruence; discriminate. }
  assert (Hsleep : forall (d : Q) (w0 : World),
             slept w0 = slept w -> logged w0 = logged w ->
             let '(r, w') :=
               (log (WarnRateLimitHit attempt d) ;; time_sleep d) w0 in
             (r = Ok tt ->
              (0 <= d)%Q /\ slept w' = (slept w ++ [d])%list
              /\ logged w' = (logged w ++ [WarnRateLimitHit attempt d])%list)
             /\ (r <> Ok tt -> slept w' = slept w)).
  { intros d w0 Hsl Hlg. unfold bind, log, modify, time_sleep.
    destruct (Qle_bool 0 d) eqn:Hd; cbn.
    - split; [| congruence]. intros _. apply Qle_bool_iff in Hd.
      rewrite Hsl, Hlg. auto.
    - unfold raise. split; [discriminate | auto]. }
  unfold bind at 1.
  destruct (Py.opt_truthy (headers_get "Retry-After" response)).
  - unfold bind at 1, py_int.
    destruct (Py.int _) as [n |]; unfold ret, raise.
    + specialize (Hsleep (inject_Z n) w eq_refl eq_refl).
      destruct ((log _ ;; time_sleep _) w) as [r w'].
      destruct Hsleep as [Hok Hbad].
      split; [lia |]. split; [lia |]. split; [| exact Hbad].
      intros _ Hr. split; [lia |]. eauto.
    + split; [lia |]. split; [lia |]. split; [discriminate | reflexivity].
  - unfold ret.
    specialize (Hsleep (Qpower 2 attempt * base_delay self)%Q w eq_refl eq_refl).
    destruct ((log _ ;; time_sleep _) w) as [r w'].
    destruct Hsleep as [Hok Hbad].
    split; [lia |]. split; [lia |]. split; [| exact Hbad].
    intros _ Hr. split; [lia |]. eauto.
Qed.

(** *** Joining the base URL and the endpoint *)

Lemma lstrip_slash_slashes (n : nat) (s : string) :
  Py.lstrip_slash (String.append (slashes n) s) = Py.lstrip_slash s.
Proof. induction n as [| n IH]; [reflexivity | exact IH]. Qed.

Lemma rstrip_slash_only_slashes (n : nat) : Py.rstrip_slash (slashes n) = EmptyString.
Proof.
  induction n as [| n IH]; [reflexivity |].
  cbn [slashes Py.rstrip_slash]. rewrite IH. reflexivity.
Qed.

Lemma rstrip_slash_slashes (n : nat) (s : string) :
  Py.rstrip_slash (String.append s (slashes n)) = Py.rstrip_slash s.
Proof.
  induction s as [| c rest IH].
  - cbn [String.append]. apply rstrip_slash_only_slashes.
  - simpl. rewrite IH. reflexivity.
Qed.

(** X15: the URL of a request is the base URL without its trailing
    slashes, one slash, and the endpoint without its leading slashes, so
    slashes added at the join do not change it; stripping twice changes
    nothing. *)
Theorem url_of_ignores_slashes_at_the_join
  (url endpoint : string) (n m : nat) (auth : option OAuth2TokenManager)
  (key : option APIKeyAuth) (tmo max_retries : Z) :
  url_of (new_client (String.append url (slashes n)) auth key tmo max_retries)
         (String.append (slashes m) endpoint)
  = url_of (new_client url auth key tmo max_retries) endpoint
  /\ url_of (new_client url auth key tmo max_retries) endpoint
     = String.append (Py.rstrip_slash url)
                     (String.append "/" (Py.lstrip_slash endpoint))
  /\ Py.rstrip_slash (Py.rstrip_slash url) = Py.rstrip_slash url
  /\ Py.lstrip_slash (Py.lstrip_slash endpoint) = Py.lstrip_slash endpoint.
Proof.
  unfold url_of, new_client. cbn [base_url].
  rewrite lstrip_slash_slashes, rstrip_slash_slashes.
  split; [reflexivity |]. split; [reflexivity |]. split.
  - induction url as [| c rest IH]; [reflexivity |].
    cbn [Py.rstrip_slash].
    destruct (Py.rstrip_slash rest) as [| c' kept] eqn:Hrest.
    + destruct (Ascii.eqb c "/") eqn:Hc; [reflexivity |].
      cbn [Py.rstrip_slash]. rewrite Hc. reflexivity.
    + cbn [Py.rstrip_slash]. cbn [Py.rstrip_slash] in IH. rewrite IH. reflexivity.
  - induction endpoint as [| c rest IH]; [reflexivity |].
    cbn [Py.lstrip_slash]. destruct (Ascii.eqb c "/") eqn:Hc; [exact IH |].
    cbn [Py.lstrip_slash]. rewrite Hc. reflexivity.
Qed.

(** *** The counters *)

Lemma error_rate_in_unit_interval (c : APIClient) :
  counters_consistent c -> (0 <= m_error_rate (get_metrics c) <= 1)%Q.
Proof.
  unfold counters_consistent, get_metrics. cbn [m_error_rate]. intros [He Hr].
  destruct (request_count c >? 0) eqn:Hpos.
  - destruct (request_count c) as [| p | p] eqn:Hrc; try discriminate.
    unfold Qdiv, Qinv, Qmult, Qle, inject_Z. cbn. lia.
  - unfold Qle. cbn. lia.
Qed.

(** X16: from any client that has counted no more errors than requests,
    after any run of [get] and [post] calls that is still so, neither
    counter went down, no more errors than requests were added, and the
    reported [error_rate] lies between 0 and 1. *)
Theorem run_calls_counters
  (env : Env) (calls : list Call) (c : APIClient) (w : World) :
  counters_consistent c ->
  let '(c', w') := run_calls env calls (c, w) in
  counters_consistent c'
  /\ request_count c <= request_count c'
  /\ error_count c <= error_count c'
  /\ error_count c' - error_count c <= request_count c' - request_count c
  /\ (0 <= m_error_rate (get_metrics c') <= 1)%Q.
Proof.
  intros Hc. pose proof (run_calls_spec env calls c w) as H.
  destruct (run_calls env calls (c, w)) as [c' w'].
  destruct H as [[Hrq Her] Hle].
  assert (Hc' : counters_consistent c') by (unfold counters_consistent in *; lia).
  split; [exact Hc' |]. split; [lia |]. split; [lia |]. split; [lia |].
  apply error_rate_in_unit_interval. exact Hc'.
Qed.

Lemma run_calls_counters_witness :
  let '(c', w') :=
    run_calls (script_env [TimedOut; unavailable] (ok Py.JNull))
              [CallGet "items" None true; CallPost "jobs" None None]
              (plain_client, world0) in
  counters_consistent c' /\ request_count c' = 3 /\ error_count c' = 2
  /\ (0 <= m_error_rate (get_metrics c') <= 1)%Q.
Proof.
  pose proof (run_calls_counters (script_env [TimedOut; unavailable] (ok Py.JNull))
                [CallGet "items" None true; CallPost "jobs" None None]
                plain_client world0) as H.
  destruct (run_calls (script_env [TimedOut; unavailable] (ok Py.JNull))
              [CallGet "items" None true; CallPost "jobs" None None]
              (plain_client, world0)) as [c' w'] eqn:Hrun.
  destruct H as (Hc & _ & _ & _ & Hrate).
  - unfold counters_consistent. cbn. lia.
  - split; [exact Hc |]. split; [| split; [| exact Hrate]].
    + apply (f_equal (fun s => request_count (fst s))) in Hrun. cbn [fst] in Hrun.
      rewrite <- Hrun. vm_compute. reflexivity.
    + apply (f_equal (fun s => error_count (fst s))) in Hrun. cbn [fst] in Hrun.
      rewrite <- Hrun. vm_compute. reflexivity.
Defined.

(** *** The requests of [paginate] *)

Lemma with_cursor_keeps (next_cursor : option Py.JSON) (params : gmap string Py.JSON)
      (k : string) :
  k <> "cursor" -> with_cursor next_cursor params !! k = params !! k.
Proof.
  intros Hk. unfold with_cursor. destruct next_cursor as [cursor |]; [| reflexivity].
  destruct (Py.truthy cursor); [| reflexivity].
  apply lookup_insert_ne. congruence.
Qed.

Lemma paginate_loop_sent (env : Env) (endpoint : string) (max_pages : option Z)
      (params0 : option (gmap string Py.JSON)) (page_size : Z) (c0 : APIClient)
      (fuel : nat) :
  forall (params : gmap string Py.JSON) (page_count : Z) (next_cursor : option Py.JSON)
         (c : APIClient) (w : World) (r : Result unit) (c' : APIClient) (w' : World),
    params !! "limit" = Some (Py.JNum page_size) ->
    (forall k, k <> "limit" -> k <> "cursor" -> params !! k = default ∅ params0 !! k) ->
    timeout c = timeout c0 -> base_url c = base_url c0 ->
    paginate_loop env endpoint max_pages fuel params page_count next_cursor (c, w)
    = (r, (c', w')) ->
    exists requests,
      sent_between w w' requests
      /\ Forall (request_of_paginate c0 endpoint params0 page_size) requests.
Proof.
  induction fuel as [| fuel IH];
    intros params page_count next_cursor c w r c' w' Hlimit Hrest Ht Hb.
  { cbn [paginate_loop]. intros H. inv_pair H. exists [].
    split; [apply sent_between_refl | constructor]. }
  rewrite paginate_loop_eq.
  destruct (get env endpoint (Some (with_cursor next_cursor params)) true (c, w))
    as [r0 [c1 w1]] eqn:Hget.
  apply get_sent in Hget. destruct Hget as (l & Hl & Hall & Ht1 & Hb1).
  assert (Hl' : Forall (request_of_paginate c0 endpoint params0 page_size) l).
  { eapply Forall_impl; [exact Hall |].
    intros rq (Hu & Hp & _). split.
    - rewrite Hu. unfold url_of. rewrite Hb. reflexivity.
    - exists (with_cursor next_cursor params). split; [exact Hp |]. split.
      + rewrite with_cursor_keeps by discriminate. exact Hlimit.
      + intros k Hk1 Hk2. rewrite with_cursor_keeps by exact Hk2. apply Hrest; assumption. }
  assert (Hstop : forall w2, sent w2 = sent w1 -> http_calls w2 = http_calls w1 ->
             exists requests,
               sent_between w w2 requests
               /\ Forall (request_of_paginate c0 endpoint params0 page_size) requests).
  { intros w2 Hs2 Hh2. exists l. split; [| exact Hl'].
    destruct Hl as (S1 & L1 & H1). unfold sent_between. rewrite Hs2, Hh2.
    repeat split; assumption. }
  destruct r0 as [page | e |].
  2, 3: intros H; inv_pair H; apply Hstop; reflexivity.
  destruct page as [| b | n | s | items | members];
    try (intros H; inv_pair H; apply Hstop; reflexivity).
  cbv zeta. destruct (exhausted members).
  { intros H; inv_pair H; apply Hstop; reflexivity. }
  destruct (capped max_pages (page_count + 1)).
  { intros H; inv_pair H; apply Hstop; reflexivity. }
  intros Hrun. apply IH in Hrun.
  - destruct Hrun as (l2 & Hl2 & Hall2). exists (l ++ l2)%list.
    split; [| apply Forall_app; split; assumption].
    refine (sent_between_trans _ _ _ _ _ _ Hl2).
    destruct Hl as (S1 & L1 & H1). unfold sent_between. cbn. repeat split; assumption.
  - rewrite with_cursor_keeps by discriminate. exact Hlimit.
  - intros k Hk1 Hk2. rewrite with_cursor_keeps by exact Hk2. apply Hrest; assumption.
  - congruence.
  - congruence.
Qed.

(** X17: every request [paginate] makes goes to the endpoint's URL and
    carries [limit = page_size] (overriding a [limit] of the caller) and the
    caller's other parameters; only [cursor] changes from page to page. *)
Theorem paginate_requests_carry_limit
  (env : Env) (endpoint : string) (params : option (gmap string Py.JSON))
  (page_size : Z) (max_pages : option Z) (fuel : nat) (c : APIClient) (w : World) :
  let '(r, (c', w')) := paginate env endpoint params page_size max_pages fuel (c, w) in
  exists requests,
    sent_between w w' requests
    /\ Forall (request_of_paginate c endpoint params page_size) requests.
Proof.
  destruct (paginate env endpoint params page_size max_pages fuel (c, w))
    as [r [c' w']] eqn:H.
  unfold paginate in H.
  apply (paginate_loop_sent env endpoint max_pages params page_size c) in H;
    [exact H | apply lookup_insert_eq | | reflexivity | reflexivity].
  intros k Hk _. apply lookup_insert_ne. congruence.
Qed.

(** *** A page cap bounds the work *)

Lemma paginate_loop_capped (env : Env) (endpoint : string) (m : Z) (fuel : nat) :
  forall (params : gmap string Py.JSON) (page_count : Z) (next_cursor : option Py.JSON)
         (c : APIClient) (w : World) (r : Result unit) (c' : APIClient) (w' : World),
    m <> 0 ->
    Z.max 1 (m - page_count) <= Z.of_nat fuel ->
    paginate_loop env endpoint (Some m) fuel params page_count next_cursor (c, w)
    = (r, (c', w')) ->
    r <> OutOfFuel
    /\ rate_limit_handler c' = rate_limit_handler c
    /\ Z.of_nat (length (yielded w')) - Z.of_nat (length (yielded w))
       <= Z.max 1 (m - page_count)
    /\ Z.of_nat (http_calls w') - Z.of_nat (http_calls w)
       <= Z.max 1 (m - page_count) * Z.max 0 (max_retries (rate_limit_handler c)).
Proof.
  induction fuel as [| fuel IH];
    intros params page_count next_cursor c w r c' w' Hm Hfuel; [lia |].
  rewrite paginate_loop_eq.
  destruct (get env endpoint (Some (with_cursor next_cursor params)) true (c, w))
    as [r0 [c1 w1]] eqn:Hget.
  pose proof (get_budget _ _ _ _ _ _ _ _ _ Hget) as [Hbudget _]. cbv zeta in Hbudget.
  apply get_spec in Hget. destruct Hget as (_ & Hy & Hrl & Hfuel0 & _).
  set (R := Z.max 0 (max_retries (rate_limit_handler c))) in *.
  set (K := Z.max 1 (m - page_count)) in *.
  assert (HK : 1 <= K) by lia. assert (HR : 0 <= R) by lia.
  assert (Hone : Z.of_nat (http_calls w1) - Z.of_nat (http_calls w) <= K * R) by nia.
  destruct r0 as [page | e |]; [| | congruence].
  2: { intros H. inv_pair H. rewrite Hy.
       split; [discriminate |]. split; [exact Hrl |]. split; lia. }
  assert (Hstop : forall (r1 : Result unit) w2,
             r1 <> OutOfFuel ->
             length (yielded w2) = S (length (yielded w1)) ->
             http_calls w2 = http_calls w1 ->
             r1 <> OutOfFuel
             /\ rate_limit_handler c1 = rate_limit_handler c
             /\ Z.of_nat (length (yielded w2)) - Z.of_nat (length (yielded w)) <= K
             /\ Z.of_nat (http_calls w2) - Z.of_nat (http_calls w) <= K * R).
  { intros r1 w2 Hr1 Hy2 Hh2. rewrite Hy2, Hh2, Hy.
    split; [exact Hr1 |]. split; [exact Hrl |]. split; lia. }
  assert (Hlen : forall page l, length (l ++ [page : Py.JSON])%list = S (length l)).
  { intros p l. rewrite length_app. cbn. lia. }
  destruct page as [| b | n | s | items | members];
    try (intros H; inv_pair H; apply Hstop;
         [discriminate | cbn; apply Hlen | reflexivity]).
  cbv zeta. destruct (exhausted members).
  { intros H; inv_pair H; apply Hstop; [discriminate | cbn; apply Hlen | reflexivity]. }
  destruct (capped (Some m) (page_count + 1)) eqn:Hcap.
  { intros H; inv_pair H; apply Hstop; [discriminate | cbn; apply Hlen | reflexivity]. }
  assert (Hmore : page_count + 1 < m).
  { unfold capped in Hcap. lia. }
  intros Hrun. apply IH in Hrun; [| exact Hm | lia].
  destruct Hrun as (Hr & Hrl' & Hy' & Hh').
  cbn [page_yielded fst snd set_yielded yielded http_calls] in Hy', Hh', Hrl'.
  rewrite Hlen in Hy'. rewrite Hrl in Hh'. fold R in Hh'.
  split; [exact Hr |]. split; [congruence |].
  rewrite Hy in Hy'.
  replace (Z.max 1 (m - (page_count + 1))) with (K - 1) in * by lia.
  split; [lia | nia].
Qed.

(** X18: with a non-zero [max_pages], [paginate] ends whatever the server
    answers: it yields at most [max_pages] pages (one when [max_pages] is
    negative) and sends at most [max_retries] requests for each. *)
Theorem paginate_capped_terminates
  (env : Env) (endpoint : string) (params : option (gmap string Py.JSON))
  (page_size m : Z) (fuel : nat) (c : APIClient) (w : World) :
  m <> 0 ->
  Z.max 1 m <= Z.of_nat fuel ->
  let '(r, (c', w')) := paginate env endpoint params page_size (Some m) fuel (c, w) in
  r <> OutOfFuel
  /\ Z.of_nat (length (yielded w')) - Z.of_nat (length (yielded w)) <= Z.max 1 m
  /\ Z.of_nat (http_calls w') - Z.of_nat (http_calls w)
     <= Z.max 1 m * Z.max 0 (max_retries (rate_limit_handler c)).
Proof.
  intros Hm Hfuel.
  destruct (paginate env endpoint params page_size (Some m) fuel (c, w))
    as [r [c' w']] eqn:H.
  unfold paginate in H. apply paginate_loop_capped in H; [| exact Hm | lia].
  rewrite Z.sub_0_r in H. tauto.
Qed.

Lemma paginate_capped_terminates_witness :
  let '(r, (c', w')) :=
    paginate (script_env [] (ok page_abc)) "items" None 100 (Some 2) 2
             (plain_client, world0) in
  r = Ok tt /\ length (yielded w') = 2%nat /\ http_calls w' = 2%nat.
Proof.
  pose proof (paginate_capped_terminates (script_env [] (ok page_abc)) "items" None 100 2 2
                plain_client world0) as H.
  destruct (paginate (script_env [] (ok page_abc)) "items" None 100 (Some 2) 2
                     (plain_client, world0)) as [r [c' w']] eqn:Hrun.
  destruct H as (Hr & Hy & Hh); [discriminate | vm_compute; discriminate |].
  assert (Hrun' : (r, (length (yielded w'), http_calls w')) = (Ok tt, (2%nat, 2%nat))).
  { change (r, (length (yielded w'), http_calls w'))
      with ((fun x : Result unit * (APIClient * World) =>
               (fst x, (length (yielded (snd (snd x))), http_calls (snd (snd x)))))
              (r, (c', w'))).
    rewrite <- Hrun. vm_compute. reflexivity. }
  inversion Hrun'. repeat split.
Defined.

(** *** A page that is no object *)

(** X19: when the first page decodes to something that is no object (an
    array, say), [paginate] yields it and then raises [AttributeError]. *)
Theorem paginate_page_not_an_object
  (env : Env) (endpoint : string) (params : option (gmap string Py.JSON))
  (page_size : Z) (max_pages : option Z) (fuel : nat) (s s1 : APIClient * World)
  (page : Py.JSON) :
  get env endpoint (Some (<[ "limit" := Py.JNum page_size ]> (default ∅ params))) true s
  = (Ok page, s1) ->
  (forall members, page <> Py.JObj members) ->
  paginate env endpoint params page_size max_pages (S fuel) s
  = (Raise AttributeError, page_yielded page s1).
Proof.
  intros Hget Hpage. unfold paginate. rewrite paginate_loop_eq. cbn [with_cursor].
  rewrite Hget. destruct page; try reflexivity. destruct (Hpage members eq_refl).
Qed.

Lemma paginate_page_not_an_object_witness :
  let '(r, (c', w')) :=
    paginate (script_env [] (ok (Py.JArr [Py.JNum 1; Py.JNum 2]))) "items" None 100 None 5
             (plain_client, world0) in
  r = Raise AttributeError /\ yielded w' = [Py.JArr [Py.JNum 1; Py.JNum 2]]
  /\ http_calls w' = 1%nat.
Proof.
  rewrite (paginate_page_not_an_object
             (script_env [] (ok (Py.JArr [Py.JNum 1; Py.JNum 2]))) "items" None 100 None 4
             (plain_client, world0)
             (request_sent
                (get_request plain_client "http://api.example/v1/items"
                   (Some (<[ "limit" := Py.JNum 100 ]> ∅)) (built_headers None None))
                (plain_client, world0))
             (Py.JArr [Py.JNum 1; Py.JNum 2]));
    [ repeat split | | intros members; discriminate ].
  apply (get_ok_without_manager _ "items" _ plain_client world0
           (json_response 200 (Py.JArr [Py.JNum 1; Py.JNum 2])));
    [ reflexivity | vm_compute; discriminate | reflexivity | reflexivity
    | reflexivity | reflexivity ].
Defined.

(** *** A client without token manager *)

Lemma handle_rate_limit_frame (self : RateLimitHandler) (response : Response)
      (attempt : Z) (w : World) (r : Result unit) (w' : World) :
  handle_rate_limit self response attempt w = (r, w') ->
  no_token_traffic w w' /\ sent w' = sent w /\ http_calls w' = http_calls w.
Proof.
  unfold handle_rate_limit, bind, py_int, log, time_sleep, modify, ret, raise.
  intros H. repeat break_match; inv_pair H; try discriminate.
  all: repeat match goal with H : (_, _) = (_, _) |- _ => inv_pair H end.
  all: repeat split.
Qed.

Lemma _get_headers_plain (env : Env) (c : APIClient) (w : World) :
  auth_manager c = None ->
  _get_headers env (c, w) = (Ok (built_headers None (api_key_auth c)), (c, w)).
Proof.
  intros Hauth. unfold _get_headers, bind, gets, ret, built_headers. cbn [fst].
  rewrite Hauth. destruct (api_key_auth c); reflexivity.
Qed.

Lemma get_loop_plain (env : Env) (url : string) (params : option (gmap string Py.JSON))
      (retry : bool) (max_attempts : Z) (headers : gmap string string) (fuel : nat) :
  forall (attempt : Z) (c : APIClient) (w : World) (r : Result Py.JSON)
         (c' : APIClient) (w' : World),
    auth_manager c = None ->
    get_loop env url params retry max_attempts fuel attempt headers (c, w) = (r, (c', w')) ->
    no_token_traffic w w'
    /\ auth_manager c' = None /\ api_key_auth c' = api_key_auth c
    /\ exists requests,
        sent w' = (sent w ++ requests)%list
        /\ Forall (fun rq => req_headers rq = headers) requests.
Proof.
  induction fuel as [| fuel IH]; intros attempt c w r c' w' Hauth.
  { cbn [get_loop]. destruct (attempt <? max_attempts); intros H; inv_pair H;
      (split; [split; reflexivity |]); (split; [exact Hauth |]); (split; [reflexivity |]);
      exists []; rewrite app_nil_r; split; [reflexivity | constructor | reflexivity | constructor]. }
  destruct (Z.lt_ge_cases attempt max_attempts) as [Hlt | Hge].
  2: { rewrite get_loop_exhausted by lia. intros H. inv_pair H.
       split; [split; reflexivity |]. split; [exact Hauth |]. split; [reflexivity |].
       exists []. rewrite app_nil_r. split; [reflexivity | constructor]. }
  rewrite get_loop_eq by exact Hlt. rewrite get_try_eq. cbv zeta.
  set (rq := get_request c url params headers).
  unfold request_sent.
  set (c1 := set_request_count (request_count c + 1) c).
  set (w1 := mkWorld (S (http_calls w)) (token_calls w) (clock_reads w) (slept w)
                     (sent w ++ [rq])%list (logged w) (yielded w)).
  assert (Hc1 : auth_manager c1 = None /\ api_key_auth c1 = api_key_auth c)
    by (split; [exact Hauth | reflexivity]).
  assert (Hstop : forall (c2 : APIClient) (w2 : World),
             auth_manager c2 = None -> api_key_auth c2 = api_key_auth c ->
             no_token_traffic w w2 -> sent w2 = (sent w ++ [rq])%list ->
             no_token_traffic w w2
             /\ auth_manager c2 = None /\ api_key_auth c2 = api_key_auth c
             /\ exists requests,
                 sent w2 = (sent w ++ requests)%list
                 /\ Forall (fun rq => req_headers rq = headers) requests).
  { intros c2 w2 Ha Hk Hn Hs. split; [exact Hn |]. split; [exact Ha |].
    split; [exact Hk |]. exists [rq]. split; [exact Hs | repeat constructor]. }
  assert (Hgo : forall (a : Z) (c2 : APIClient) (w2 : World),
             auth_manager c2 = None -> api_key_auth c2 = api_key_auth c ->
             no_token_traffic w w2 -> sent w2 = (sent w ++ [rq])%list ->
             get_loop env url params retry max_attempts fuel a headers (c2, w2)
             = (r, (c', w')) ->
             no_token_traffic w w'
             /\ auth_manager c' = None /\ api_key_auth c' = api_key_auth c
             /\ exists requests,
                 sent w' = (sent w ++ requests)%list
                 /\ Forall (fun rq => req_headers rq = headers) requests).
  { intros a c2 w2 Ha Hk [Hn1 Hn2] Hs Hrun. apply IH in Hrun; [| exact Ha].
    destruct Hrun as ([Hn1' Hn2'] & Ha' & Hk' & l & Hl & Hall).
    split; [split; congruence |]. split; [exact Ha' |]. split; [congruence |].
    exists ([rq] ++ l)%list. split; [rewrite Hl, Hs, <- app_assoc; reflexivity |].
    apply Forall_app. split; [repeat constructor | exact Hall]. }
  destruct (session_get env (http_calls w) rq) as [response | |].
  2: { destruct (attempt >=? max_attempts - 1).
       - intros H. inv_pair H. apply Hstop; try reflexivity; try exact Hauth.
         split; reflexivity.
       - apply Hgo; try reflexivity; try exact Hauth. split; reflexivity. }
  2: { intros H. inv_pair H. apply Hstop; try reflexivity; try exact Hauth.
       split; reflexivity. }
  destruct ((status_code response =? 429) && retry).
  { unfold bind at 1. unfold on_snd at 1.
    destruct (handle_rate_limit (rate_limit_handler c) response attempt w1)
      as [r0 w0] eqn:Hh.
    pose proof (handle_rate_limit_spec _ _ _ _ _ _ Hh) as [_ Hcases].
    apply handle_rate_limit_frame in Hh. destruct Hh as ([Ht Hcl] & Hs & _).
    assert (Hn0 : no_token_traffic w w0) by (split; [exact Ht | exact Hcl]).
    destruct Hcases as [-> | [-> | [-> _]]].
    - unfold ret. apply Hgo; [exact Hauth | reflexivity | exact Hn0 | exact Hs].
    - intros H. inv_pair H. apply Hstop; [exact Hauth | reflexivity | exact Hn0 | exact Hs].
    - intros H. inv_pair H. apply Hstop; [exact Hauth | reflexivity | exact Hn0 | exact Hs]. }
  assert (Hno : bool_decide (is_Some (auth_manager c)) = false).
  { rewrite Hauth. apply bool_decide_eq_false. intros [x Hx]. discriminate. }
  rewrite Hno, andb_false_r.
  destruct (negb (rate_limit_headers_ok response)).
  { intros H. inv_pair H. apply Hstop; try reflexivity; try exact Hauth. split; reflexivity. }
  destruct (is_error_status (status_code response)).
  { intros H. inv_pair H. apply Hstop; try reflexivity; try exact Hauth. split; reflexivity. }
  destruct (body response); intros H; inv_pair H;
    apply Hstop; try reflexivity; try exact Hauth; split; reflexivity.
Qed.

(** X21: a client without token manager never posts to the token
    endpoint and never reads the clock, in [get] as in [post]; every request
    it sends has the same headers, [User-Agent], [Accept] and the API key if
    there is one, and so no [Authorization] unless the key is sent under
    that name. *)
Theorem no_manager_no_token_traffic
  (env : Env) (call : Call) (c : APIClient) (w : World) :
  auth_manager c = None ->
  let '(r, (c', w')) := run_call env call (c, w) in
  token_calls w' = token_calls w
  /\ clock_reads w' = clock_reads w
  /\ auth_manager c' = None
  /\ exists requests,
      sent w' = (sent w ++ requests)%list
      /\ Forall (fun rq =>
                   req_headers rq = built_headers None (api_key_auth c)
                   /\ ((forall k, api_key_auth c = Some k ->
                                  header_name k <> "Authorization") ->
                       req_headers rq !! "Authorization" = None)) requests.
Proof.
  intros Hauth.
  assert (Hhdr : forall rq : Request,
             req_headers rq = built_headers None (api_key_auth c) ->
             req_headers rq = built_headers None (api_key_auth c)
             /\ ((forall k, api_key_auth c = Some k -> header_name k <> "Authorization") ->
                 req_headers rq !! "Authorization" = None)).
  { intros rq Hrq. split; [exact Hrq |]. intros Hk. rewrite Hrq.
    rewrite (built_headers_other None (api_key_auth c) "Authorization" Hk). reflexivity. }
  destruct call as [endpoint params retry | endpoint json data]; cbn [run_call].
  - rewrite (get_eq _ _ _ _ _ _ _ _ (_get_headers_plain env c w Hauth)). cbv zeta.
    match goal with |- match ?t with pair _ _ => _ end =>
      destruct t as [r [c' w']] eqn:Hrun end.
    apply get_loop_plain in Hrun; [| exact Hauth].
    destruct Hrun as ([Ht Hc] & Ha & _ & l & Hl & Hall).
    split; [exact Ht |]. split; [exact Hc |]. split; [exact Ha |].
    exists l. split; [exact Hl |].
    eapply Forall_impl; [exact Hall |]. exact Hhdr.
  - unfold post, bind at 1, gets. cbn [fst]. unfold bind at 1.
    rewrite (_get_headers_plain env c w Hauth).
    unfold try_except, bind, incr_request_count, incr_error_count, modify, on_snd,
      call_session, raise_for_status, response_json, log, raise, ret.
    cbn [fst snd].
    destruct (session_post env _ _) as [response | |]; cbn.
    1: destruct ((400 <=? status_code response) && (status_code response <? 600)); cbn.
    2: destruct (body response); cbn.
    all: split; [reflexivity |]; split; [reflexivity |]; split; [exact Hauth |].
    all: eexists [_]; split; [reflexivity |].
    all: constructor; [apply Hhdr; reflexivity | constructor].
Qed.

Lemma no_manager_no_token_traffic_witness :
  let '(r, (c', w')) :=
    run_call (script_env [unauthorized] (ok Py.JNull)) (CallGet "items" None true)
             (plain_client, world0) in
  token_calls w' = 0%nat /\ clock_reads w' = 0%nat /\ auth_manager c' = None.
Proof.
  pose proof (no_manager_no_token_traffic (script_env [unauthorized] (ok Py.JNull))
                (CallGet "items" None true) plain_client world0 eq_refl) as H.
  destruct (run_call (script_env [unauthorized] (ok Py.JNull)) (CallGet "items" None true)
                     (plain_client, world0)) as [r [c' w']].
  destruct H as (Ht & Hc & Ha & _).
  split; [exact Ht |]. split; [exact Hc | exact Ha].
Defined.

(** *** Weather data *)

Lemma daily_or_default_joined (daily_params : option (list string)) :
  String.concat "," (daily_or_default daily_params)
  = match daily_params with
    | Some (p :: rest) => String.concat "," (p :: rest)
    | _ => "temperature_2m_max,temperature_2m_min,precipitation_sum"
    end.
Proof. destruct daily_params as [[| p rest] |]; reflexivity. Qed.

(** X20: [get_weather_data] is one [get] of [forecast]: it always ends and
    sends at most [max_retries] requests (three for a client from the
    constructor), each to the base URL followed by [/forecast], with the
    client's timeout and exactly six parameters: the coordinates and the two
    dates as given, [timezone = UTC], and as [daily] the given names joined
    by commas, or the three default names when none or an empty list is
    given. *)
Theorem get_weather_data_requests
  (env : Env) (latitude longitude : Py.JSON) (start_date end_date : string)
  (daily_params : option (list string)) (self : OpenMeteoClient) (w : World) :
  let daily :=
    match daily_params with
    | Some (p :: rest) => String.concat "," (p :: rest)
    | _ => "temperature_2m_max,temperature_2m_min,precipitation_sum"
    end in
  let '(r, (self', w')) :=
    get_weather_data env latitude longitude start_date end_date daily_params (self, w) in
  r <> OutOfFuel
  /\ Z.of_nat (http_calls w') - Z.of_nat (http_calls w)
     <= Z.max 0 (max_retries (rate_limit_handler (client self)))
  /\ (exists requests,
         sent_between w w' requests
         /\ Forall (request_of_weather self latitude longitude start_date end_date daily)
                   requests)
  /\ max_retries (rate_limit_handler (client default_open_meteo_client)) = 3
  /\ base_url (client default_open_meteo_client) = "https://api.open-meteo.com/v1".
Proof.
  intros daily. subst daily. rewrite <- daily_or_default_joined.
  unfold get_weather_data.
  destruct (get env "forecast" _ true (client self, w)) as [r [c' w']] eqn:Hget.
  pose proof (get_budget _ _ _ _ _ _ _ _ _ Hget) as [Hn _]. cbv zeta in Hn.
  pose proof (get_sent _ _ _ _ _ _ _ _ _ Hget) as (l & Hl & Hall & _).
  apply get_spec in Hget. destruct Hget as (_ & _ & _ & Hfuel & _).
  split; [exact Hfuel |]. split; [lia |]. split; [| split; reflexivity].
  exists l. split; [exact Hl |].
  eapply Forall_impl; [exact Hall |].
  intros rq (Hu & Hp & Ht & _). split; [exact Hu |]. split; [exact Ht |].
  eexists. split; [exact Hp |].
  repeat split; try (vm_compute; reflexivity).
Qed.
